(** * investment.py: a year-stepped backtest of a buy-and-hold withdrawal strategy

    Shallow embedding of the simulation core of [investment.py]: the [Market]
    clock, the [InvestmentAccount] ledger, [BuyAndHoldStrategy.go], the
    inflation helpers and the [run_strategy] driver.

    The code is read twice.  The first reading takes Python's [float] as an
    exact rational [Q]: it carries the statements about the order of the
    steps, the clock, the tables, the exceptions and the rows, and it shows
    what the arithmetic of the code would give without rounding.  The second
    reading,
    the module [Binary64], takes [float] as the binary64 number it is, with
    the operations of the interpreter; everything that rounding decides is
    stated and proved there.

    Conventions of the embedding.
    - Python [int] is [Z]; in the first reading Python [float] (money,
      prices, rates) is an exact rational [Q] and equality of amounts is
      [Qeq] ([==]).
    - A [dict] is a [gmap]; [d[k]] on a missing key raises [KeyError].
    - Exceptions are values of [exn], computations that may raise live in
      [result].  Mutation is explicit state passing: a method returns the
      object after the call.
    - [InvestmentAccount._market] is a reference to the one [Market] object
      that the strategy also advances; a method of the account therefore takes
      the market as it is at the time of the call. *)

From Stdlib Require Import ZArith QArith Qround Lqa Lia List String Floats.
From Stdlib Require Uint63.
From stdpp Require Import base numbers list list_numbers gmap strings pretty sorting.

Local Open Scope Z_scope.

(** ** Exceptions and fallible computations *)

Inductive exn : Type :=
  | KeyError (key : Z)
  | ZeroDivisionError
  | AssertionError.

Inductive result (A : Type) : Type :=
  | Ok (a : A)
  | Raise (e : exn).
Arguments Ok {A} a.
Arguments Raise {A} e.

Definition bind {A B : Type} (r : result A) (k : A -> result B) : result B :=
  match r with
  | Ok a => k a
  | Raise e => Raise e
  end.

Notation "'let*' x ':=' r 'in' k" := (bind r (fun x => k))
  (at level 10, x pattern, r at level 100, k at level 200).

(** The computation does not end in the failure of an [assert]. *)
Definition no_assert {A : Type} (r : result A) : Prop := r <> Raise AssertionError.

(** [d[k]] *)
Definition getitem {V : Type} (d : gmap Z V) (k : Z) : result V :=
  match d !! k with
  | Some v => Ok v
  | None => Raise (KeyError k)
  end.

(** [a < b] on floats *)
Definition Qltb (a b : Q) : bool := negb (Qle_bool b a).

(** [a / b] on floats *)
Definition truediv (a b : Q) : result Q :=
  if Qeq_bool b 0 then Raise ZeroDivisionError else Ok (a / b)%Q.

(** ** class SnpYear *)

Record SnpYear : Type := mkSnpYear {
  year : Z;
  open : Q;
  close : Q
}.

(** ** class Market *)

Record Market : Type := mkMarket {
  _cur_year : Z;
  _at_start_of_year : bool;
  _snp_yearly : gmap Z SnpYear;
  _year_to_inflation : gmap Z Q
}.

(** [Market.__init__] *)
Definition Market_init (snp_yearly : gmap Z SnpYear) (start_year : Z)
    (year_to_inflation : gmap Z Q) : Market :=
  {| _cur_year := start_year;
     _at_start_of_year := true;
     _snp_yearly := snp_yearly;
     _year_to_inflation := year_to_inflation |}.

Definition move_to_next_year (m : Market) : Market :=
  {| _cur_year := _cur_year m + 1;
     _at_start_of_year := true;
     _snp_yearly := _snp_yearly m;
     _year_to_inflation := _year_to_inflation m |}.

Definition move_to_end_of_current_year (m : Market) : Market :=
  {| _cur_year := _cur_year m;
     _at_start_of_year := false;
     _snp_yearly := _snp_yearly m;
     _year_to_inflation := _year_to_inflation m |}.

Definition current_inflation (m : Market) : result Q :=
  getitem (_year_to_inflation m) (_cur_year m).

Definition current_year_growth (m : Market) : result Q :=
  let* y := getitem (_snp_yearly m) (_cur_year m) in
  truediv (close y - open y)%Q (open y).

Definition current_price (m : Market) : result Q :=
  if _at_start_of_year m then
    let* y := getitem (_snp_yearly m) (_cur_year m) in Ok (open y)
  else
    let* y := getitem (_snp_yearly m) (_cur_year m) in Ok (close y).

(** ** class InvestmentAccount *)

Record InvestmentAccount : Type := mkAccount {
  _cash : Q;
  _num_shares : Z
}.

(** [InvestmentAccount.__init__] *)
Definition InvestmentAccount_init (starting_cash : Q) : InvestmentAccount :=
  {| _cash := starting_cash; _num_shares := 0 |}.

Definition cash_available (a : InvestmentAccount) : Q := _cash a.

Definition num_shares_owned (a : InvestmentAccount) : Z := _num_shares a.

Definition net_worth (m : Market) (a : InvestmentAccount) : result Q :=
  let* p := current_price m in
  Ok (_cash a + inject_Z (_num_shares a) * p)%Q.

(** The debug line reads [current_price] first, so a year without price data
    raises before the assertion is looked at. *)
Definition buy_stock (m : Market) (num_shares : Z) (a : InvestmentAccount)
    : result InvestmentAccount :=
  let* p := current_price m in
  if Qle_bool (p * inject_Z num_shares) (_cash a) then
    Ok {| _cash := (_cash a - p * inject_Z num_shares)%Q;
          _num_shares := _num_shares a + num_shares |}
  else Raise AssertionError.

(** The debug line reads [current_price] and [net_worth] before the test on
    the share count. *)
Definition sell_stock (m : Market) (num_shares : Z) (a : InvestmentAccount)
    : result (bool * InvestmentAccount) :=
  let* p := current_price m in
  let* _ := net_worth m a in
  if _num_shares a <? num_shares then Ok (false, a)
  else
    Ok (true, {| _cash := (_cash a + p * inject_Z num_shares)%Q;
                 _num_shares := _num_shares a - num_shares |}).

Definition spend_cash (amount : Q) (a : InvestmentAccount)
    : bool * InvestmentAccount :=
  if Qltb (_cash a) amount then (false, a)
  else (true, {| _cash := (_cash a - amount)%Q; _num_shares := _num_shares a |}).

(** ** Process-wide configuration and external library calls *)

(** The module globals that [cli] sets and the two tables loaded at import
    time from the csv files. *)
Record Globals : Type := mkGlobals {
  SPENDING_PERCENTAGE : Q;
  SPEND_FIXED_REAL_AMOUNT : bool;
  snp_yearly : gmap Z SnpYear;
  year_to_inflation : gmap Z Q
}.

Definition STARTING_CASH : Q := 1000000.

(** [cli]: the percentage given on the command line is divided by 100. *)
Definition cli (spending_percentage : Q) (spend_fixed_real_amount : bool)
    (snp : gmap Z SnpYear) (inflation : gmap Z Q) : Globals :=
  {| SPENDING_PERCENTAGE := (spending_percentage / 100)%Q;
     SPEND_FIXED_REAL_AMOUNT := spend_fixed_real_amount;
     snp_yearly := snp;
     year_to_inflation := inflation |}.

(** [termcolor.colored] and the float case of Python's [format(x, spec)] are
    library code; the strategy only passes their results along. *)
Class Externals : Type := {
  colored : string -> string -> string;
  format_float : string -> Q -> string
}.

Inductive cell : Type :=
  | CInt (z : Z)
  | CStr (s : string).

Section Strategy.
Context `{Externals}.
Variable g : Globals.

Definition dollarstr (amount : Q) : string := "$" +:+ format_float ",.0f" amount.

Definition dollarstr_decimal (amount : Q) : string := "$" +:+ format_float ",.2f" amount.

Definition percentstr (percent : Q) : string :=
  format_float ".2f" (percent * 100)%Q +:+ "%".

Definition nl : string := String (Ascii.ascii_of_nat 10) EmptyString.

Definition debug_header : list cell :=
  [ CStr "year";
    CStr "start # shares";
    CStr ("start net worth" +:+ nl +:+ "(nominal)");
    CStr ("start-of-year" +:+ nl +:+ "withdrawal" +:+ nl +:+ "(inflation-adjusted cash to spend)");
    CStr ("start-of-year" +:+ nl +:+ "withdrawal" +:+ nl +:+ "(shares sold)");
    CStr "unspent cash";
    CStr "start share price";
    CStr "end share price";
    CStr "inflation %";
    CStr "end # shares";
    CStr ("end net worth" +:+ nl +:+ "(nominal)") ].

(** The variables of [BuyAndHoldStrategy.go] that live across iterations of
    the loop, together with the two objects the loop mutates. *)
Record LoopState : Type := mkLoopState {
  account : InvestmentAccount;
  market : Market;
  fixed_real_withdrawal : Q;
  debug_info : list (list cell)
}.

(** [this_year_withdrawal], as the loop computes it at the start of a year. *)
Definition this_year_withdrawal (s : LoopState) : result Q :=
  let* net := net_worth (market s) (account s) in
  let constant_percent_withdrawal := (net * SPENDING_PERCENTAGE g)%Q in
  Ok (if SPEND_FIXED_REAL_AMOUNT g then fixed_real_withdrawal s
      else constant_percent_withdrawal).

(** [num_shares_to_sell] *)
Definition num_shares_to_sell (withdrawal : Q) (s : LoopState) : result Z :=
  let* p := current_price (market s) in
  let* q := truediv (withdrawal - cash_available (account s))%Q p in
  Ok (Qceiling q).

(** One iteration of the [for year in range(...)] loop.  [Some ret] is a
    [break] with the value given to [ret]; [None] falls through to the next
    year. *)
Definition year_body (year : Z) (s : LoopState)
    : result (option (bool * string) * LoopState) :=
  let start_shares := num_shares_owned (account s) in
  let* start_net_worth := net_worth (market s) (account s) in
  let* withdrawal := this_year_withdrawal s in
  let* n := num_shares_to_sell withdrawal s in
  let* sold := sell_stock (market s) n (account s) in
  if negb (fst sold) then
    Ok (Some (false, colored ("ran short in " +:+ pretty year) "red"),
        mkLoopState (snd sold) (market s) (fixed_real_withdrawal s) (debug_info s))
  else
  let spent := spend_cash withdrawal (snd sold) in
  if negb (fst spent) then
    Ok (Some (false, colored "failed to spend cash?" "yellow"),
        mkLoopState (snd spent) (market s) (fixed_real_withdrawal s) (debug_info s))
  else
  let a := snd spent in
  let* start_share_price := current_price (market s) in
  let m := move_to_end_of_current_year (market s) in
  let* end_share_price := current_price m in
  let* inflation := current_inflation m in
  let* end_net_worth := net_worth m a in
  let row :=
    [ CInt year;
      CInt start_shares;
      CStr (dollarstr start_net_worth);
      CStr (dollarstr withdrawal);
      CInt n;
      CStr (dollarstr (cash_available a));
      CStr (dollarstr_decimal start_share_price);
      CStr (dollarstr_decimal end_share_price);
      CStr (percentstr inflation);
      CInt (num_shares_owned a);
      CStr (dollarstr end_net_worth) ] in
  let* inflation' := current_inflation m in
  Ok (None,
      mkLoopState a (move_to_next_year m)
        (fixed_real_withdrawal s * (1 + inflation'))%Q
        (debug_info s ++ [row])).

(** The [for] loop: [ret] keeps its initial value unless an iteration
    breaks. *)
Fixpoint loop (years : list Z) (ret : bool * string) (s : LoopState)
    : result ((bool * string) * LoopState) :=
  match years with
  | [] => Ok (ret, s)
  | year :: rest =>
      let* r := year_body year s in
      match fst r with
      | Some ret' => Ok (ret', snd r)
      | None => loop rest ret (snd r)
      end
  end.

(** The state in which the loop is entered: everything is invested right
    away. *)
Definition go_init (a : InvestmentAccount) (m : Market) : result LoopState :=
  let fixed_real_withdrawal := (cash_available a * SPENDING_PERCENTAGE g)%Q in
  let* p := current_price m in
  let* q := truediv (cash_available a) p in
  let* a' := buy_stock m (Qfloor q) a in
  Ok (mkLoopState a' m fixed_real_withdrawal [debug_header]).

(** [BuyAndHoldStrategy.go].  Besides [ret] the result carries the account
    and the market as the call leaves them, and the table that is logged and
    written to the csv file. *)
Definition go (a : InvestmentAccount) (m : Market) (start_year num_years : Z)
    : result ((bool * string) * LoopState) :=
  let* s := go_init a m in
  loop (seqZ start_year num_years) (true, "") s.

(** ** Inflation *)

Fixpoint compound (years : list Z) (percent : Q) : result Q :=
  match years with
  | [] => Ok percent
  | y :: rest =>
      let* rate := getitem (year_to_inflation g) y in
      compound rest (percent * (1 + rate))%Q
  end.

Definition get_inflation_percentage (start_year num_years : Z) : result Q :=
  compound (seqZ start_year num_years) 1%Q.

Definition nominal_to_real (start : Q) (start_year num_years : Z) : result Q :=
  let* percent := get_inflation_percentage start_year num_years in
  let* inv := truediv 1 percent in
  Ok (start * inv)%Q.

(** ** The driver *)

Definition display_header : list string :=
  [ "Years"; "End value (real)"; "End value (nominal)"; "Gain"; "Inflation" ].

(** The body of the [for year in start_years] loop of [run_strategy]: the
    row it adds to [display]. *)
Definition run_one (num_years year : Z) : result (list string) :=
  let m := Market_init (snp_yearly g) year (year_to_inflation g) in
  let a := InvestmentAccount_init STARTING_CASH in
  let years_range := pretty year +:+ " - " +:+ pretty (year + num_years) in
  let* r := go a m year num_years in
  let status := fst r in
  let s := snd r in
  if fst status then
    let* inflation := get_inflation_percentage year num_years in
    let* net := net_worth (market s) (account s) in
    let* net_worth_real := nominal_to_real net year num_years in
    let* remainder_percent :=
      truediv ((net_worth_real - STARTING_CASH) * 100)%Q STARTING_CASH in
    let gainloss :=
      if Qltb 0 remainder_percent
      then format_float ".2f" remainder_percent +:+ "%"
      else colored (format_float ".2f" remainder_percent +:+ "%") "red" in
    let* net' := net_worth (market s) (account s) in
    Ok [ years_range;
         "$" +:+ format_float ",.0f" net_worth_real;
         "$" +:+ format_float ",.0f" net';
         gainloss;
         format_float ".2f" (inflation * 100)%Q +:+ "%" ]
  else
    Ok [ years_range; snd status; ""; ""; ""; "" ].

Fixpoint run_rows (num_years : Z) (start_years : list Z)
    (display : list (list string)) : result (list (list string)) :=
  match start_years with
  | [] => Ok display
  | year :: rest =>
      let* row := run_one num_years year in
      run_rows num_years rest (display ++ [row])
  end.

(** [run_strategy] for [BuyAndHoldStrategy]: the table it logs. *)
Definition run_strategy (start_years : list Z) (num_years : Z)
    : result (list (list string)) :=
  run_rows num_years start_years [display_header].

(** ** Vocabulary for statements about a run

    [year_start a m start_year k s]: the call [go a m start_year _] has
    invested, has gone through the first [k] years of the loop without a
    [break], and [s] is the state in which the next iteration would start. *)
Definition year_start (a : InvestmentAccount) (m : Market) (start_year : Z)
    (k : nat) (s : LoopState) : Prop :=
  exists s0,
    go_init a m = Ok s0
    /\ loop (seqZ start_year (Z.of_nat k)) (true, "") s0 = Ok ((true, ""), s).

(** The accounts that the call [go a m start_year num_years] holds right
    after one of its account operations has succeeded: the initial
    [buy_stock], and in each year that is reached the [sell_stock] and the
    [spend_cash]. *)
Inductive after_operation (a : InvestmentAccount) (m : Market)
    (start_year num_years : Z) : InvestmentAccount -> Prop :=
  | after_buy_stock (s0 : LoopState) :
      go_init a m = Ok s0 ->
      after_operation a m start_year num_years (account s0)
  | after_sell_stock (k : nat) (s : LoopState) (w : Q) (n : Z)
      (a1 : InvestmentAccount) :
      Z.of_nat k < num_years ->
      year_start a m start_year k s ->
      this_year_withdrawal s = Ok w ->
      num_shares_to_sell w s = Ok n ->
      sell_stock (market s) n (account s) = Ok (true, a1) ->
      after_operation a m start_year num_years a1
  | after_spend_cash (k : nat) (s : LoopState) (w : Q) (n : Z)
      (a1 a2 : InvestmentAccount) :
      Z.of_nat k < num_years ->
      year_start a m start_year k s ->
      this_year_withdrawal s = Ok w ->
      num_shares_to_sell w s = Ok n ->
      sell_stock (market s) n (account s) = Ok (true, a1) ->
      spend_cash w a1 = (true, a2) ->
      after_operation a m start_year num_years a2.

(** What holds of the loop state at the start of every year of a run on the
    tables of the market [m]: nothing in the account or in the withdrawal
    target is negative. *)
Definition sound (m : Market) (s : LoopState) : Prop :=
  (0 <= _cash (account s))%Q
  /\ 0 <= _num_shares (account s)
  /\ (0 <= fixed_real_withdrawal s)%Q
  /\ _snp_yearly (market s) = _snp_yearly m
  /\ _year_to_inflation (market s) = _year_to_inflation m.

End Strategy.

(** The spec's compounded factor: the product, taken from left to right, of
    [1 + rate y] over the years [start_year], ..., [start_year + num_years - 1]. *)
Definition compounded_factor (rate : Z -> Q) (start_year num_years : Z) : Q :=
  fold_left Qmult (map (fun y => (1 + rate y)%Q) (seqZ start_year num_years)) 1%Q.

(** ** Sample data

    A market whose price falls from 100 to 10 after its first year, and a
    market of one year that opens at 100 and closes at 110; both are used to
    run the definitions on concrete inputs.  [plain_text] leaves the text
    uncoloured and prints every float as [#]. *)

Definition plain_text : Externals :=
  {| colored := fun text _ => text;
     format_float := fun _ _ => "#" |}.

Definition snp_falling : gmap Z SnpYear :=
  {[ 2000 := mkSnpYear 2000 100 100; 2001 := mkSnpYear 2001 10 10;
     2002 := mkSnpYear 2002 10 10 ]}.

Definition snp_one_year : gmap Z SnpYear :=
  {[ 2000 := mkSnpYear 2000 100 110 ]}.

Definition no_inflation : gmap Z Q :=
  {[ 2000 := 0%Q; 2001 := 0%Q; 2002 := 0%Q ]}.

Definition five_percent : gmap Z Q :=
  {[ 2000 := (5 # 100)%Q; 2001 := (5 # 100)%Q ]}.

Definition market_2000 : Market := Market_init snp_one_year 2000 five_percent.

(** A run of two years at a withdrawal rate of 90 percent through the falling
    market, and a run of one year at 4 percent. *)
Definition spend_ninety : Globals := cli 90 true snp_falling no_inflation.

Definition spend_four : Globals := cli 4 true snp_one_year five_percent.

(** A withdrawal rate below zero, as the command line accepts it. *)
Definition spend_minus_four : Globals := cli (-4) true snp_one_year five_percent.

Definition fresh_account : InvestmentAccount := InvestmentAccount_init STARTING_CASH.

(** ** Vocabulary for the further properties *)

(** The entry of year [y] in the inflation table of the globals, read as 0
    where there is none. *)
Definition rate_of (g : Globals) (y : Z) : Q :=
  default 0%Q (year_to_inflation g !! y).

(** ** remove_ansi_codes

    [ANSI_ESCAPE = re.compile(r'\x1B[@-_][0-?]*[ -/]*[@-~]')]: the character
    ESC, one character from [@] to [_], any number of characters from [0] to
    [?], any number from space to [/], and one character from [@] to [~].
    A string is read as its sequence of bytes; no byte of a character outside
    ASCII lies in one of the four ranges. *)

Definition in_range (lo hi : nat) (c : Ascii.ascii) : bool :=
  ((lo <=? Ascii.nat_of_ascii c)%nat && (Ascii.nat_of_ascii c <=? hi)%nat)%bool.

Definition is_esc (c : Ascii.ascii) : bool := (Ascii.nat_of_ascii c =? 27)%nat.

Definition is_intro : Ascii.ascii -> bool := in_range 64 95.

Definition is_param : Ascii.ascii -> bool := in_range 48 63.

Definition is_inter : Ascii.ascii -> bool := in_range 32 47.

Definition is_final : Ascii.ascii -> bool := in_range 64 126.

(** A starred character class: the longest run of characters of the class.
    The three classes that follow one another in the pattern are disjoint, so
    the longest run is the only one from which the rest of the pattern can
    match, and the search of the engine for shorter runs never succeeds. *)
Fixpoint skip_while (p : Ascii.ascii -> bool) (s : string) : string :=
  match s with
  | EmptyString => EmptyString
  | String c s' => if p c then skip_while p s' else s
  end.

(** A match of the pattern at the start of [s]: what follows the match. *)
Definition match_escape (s : string) : option string :=
  match s with
  | String c0 (String c1 rest) =>
      if (is_esc c0 && is_intro c1)%bool then
        match skip_while is_inter (skip_while is_param rest) with
        | String c rest' => if is_final c then Some rest' else None
        | EmptyString => None
        end
      else None
  | _ => None
  end.

(** [ANSI_ESCAPE.sub('', s)]: from left to right, a match is dropped and the
    scan goes on behind it, a character at which no match starts is kept.
    [fuel] bounds the number of steps; the length of the string is enough. *)
Fixpoint sub_escape (fuel : nat) (s : string) : string :=
  match fuel with
  | O => s
  | S fuel' =>
      match s with
      | EmptyString => EmptyString
      | String c s' =>
          match match_escape s with
          | Some rest => sub_escape fuel' rest
          | None => String c (sub_escape fuel' s')
          end
      end
  end.

Definition remove_ansi_codes (s : string) : string :=
  sub_escape (String.length s) s.

(** The strings of the further properties: a string without the character
    ESC, a string all of whose characters are in a class, and an escape
    sequence followed by [rest]. *)
Fixpoint all_chars (p : Ascii.ascii -> bool) (s : string) : bool :=
  match s with
  | EmptyString => true
  | String c s' => (p c && all_chars p s')%bool
  end.

Definition escape_free (s : string) : Prop :=
  all_chars (fun c => negb (is_esc c)) s = true.

Definition escape_then (c1 : Ascii.ascii) (params inters : string) (final : Ascii.ascii)
    (rest : string) : string :=
  String (Ascii.ascii_of_nat 27)
    (String c1 (params +:+ (inters +:+ String final rest))).

(** ** sim_buy_and_hold: the start years

    [years = sorted(set(snp_yearly.keys()))], and unless [only_year] is
    given one start year [years[iyear]] for each [iyear] in
    [range(len(years) - num_years)].  [None] stands for the [IndexError] of
    [years[iyear]]. *)

Definition sorted_years (g : Globals) : list Z :=
  merge_sort Z.le (elements (dom (snp_yearly g))).

Definition start_years (g : Globals) (num_years : Z) (only_year : option Z)
    : option (list Z) :=
  match only_year with
  | None =>
      let years := sorted_years g in
      mapM (fun iyear => years !! Z.to_nat iyear)
           (seqZ 0 (Z.of_nat (length years) - num_years))
  | Some year => Some [year]
  end.

(** ** get_inflation_data

    What pandas hands over is data of the model: each row of the sheet with
    its year and, for a column name, a cell that is a string such as
    ['3.2%'] or something that is not one (the NaN of an empty cell).  The
    sheet has the thirteen columns the loop reads.  [float] is Python's
    conversion of a string, [None] for its [ValueError]; a string that
    Python reads as nan or inf is outside the model. *)

Inductive csv_cell : Type :=
  | CellStr (s : string)
  | CellOther.

Record InflationRow : Type := mkInflationRow {
  Year : Z;
  column : string -> csv_cell
}.

Inductive load_exn : Type :=
  | ValueError (text : string)
  | Builtin (e : exn).

Inductive loaded (A : Type) : Type :=
  | Loaded (a : A)
  | LoadRaise (e : load_exn).
Arguments Loaded {A} a.
Arguments LoadRaise {A} e.

(** ['Jan,Feb,Mar,Apr,May,Jun,Jul,Aug,Sep,Oct,Nov,Dec'.split(',')] *)
Definition months : list string :=
  ["Jan"; "Feb"; "Mar"; "Apr"; "May"; "Jun";
   "Jul"; "Aug"; "Sep"; "Oct"; "Nov"; "Dec"].

(** [cur.replace('%', '')] *)
Fixpoint remove_percent (s : string) : string :=
  match s with
  | EmptyString => EmptyString
  | String c rest =>
      if (Ascii.nat_of_ascii c =? 37)%nat then remove_percent rest
      else String c (remove_percent rest)
  end.

(** The [for month in ...] loop, from the [total] and [num_good] it has
    reached. *)
Fixpoint month_loop (float : string -> option Q) (row : InflationRow)
    (ms : list string) (total : Q) (num_good : Z) : loaded (Q * Z) :=
  match ms with
  | [] => Loaded (total, num_good)
  | month :: rest =>
      match column row month with
      | CellStr cur =>
          match float (remove_percent cur) with
          | Some x => month_loop float row rest (total + x / 100)%Q (num_good + 1)
          | None => LoadRaise (ValueError (remove_percent cur))
          end
      | CellOther => month_loop float row rest total num_good
      end
  end.

(** The body of the loop over the rows: the rate stored for the row. *)
Definition inflation_row (float : string -> option Q) (row : InflationRow)
    : loaded Q :=
  match month_loop float row months 0%Q 0 with
  | Loaded (total, num_good) =>
      match truediv 12 (inject_Z num_good) with
      | Ok f => Loaded ((total * f) / 12)%Q
      | Raise e => LoadRaise (Builtin e)
      end
  | LoadRaise e => LoadRaise e
  end.

Fixpoint inflation_rows (float : string -> option Q) (rows : list InflationRow)
    (ret : gmap Z Q) : loaded (gmap Z Q) :=
  match rows with
  | [] => Loaded ret
  | row :: rest =>
      match inflation_row float row with
      | Loaded total => inflation_rows float rest (<[Year row := total]> ret)
      | LoadRaise e => LoadRaise e
      end
  end.

Definition get_inflation_data (float : string -> option Q)
    (rows : list InflationRow) : loaded (gmap Z Q) :=
  inflation_rows float rows ∅.

(** The strings of a row under the given columns, in the order of the
    columns, and the sum of a list of rates. *)
Definition good_cells (row : InflationRow) (ms : list string) : list string :=
  omap (fun month => match column row month with
                     | CellStr cur => Some cur
                     | CellOther => None
                     end) ms.

Definition Qsum (l : list Q) : Q := fold_right Qplus 0%Q l.

(** ** The yearly price table

    [all_dates] pairs the date of each row of the price sheet with the row;
    reading the sheet and parsing its dates are outside the model.  Dates
    compare as Python's do, by year, then month, then day.  [min] and [max]
    with a key return the first of the entries with the least and the
    greatest key, and raise [ValueError] on an empty list ([None] here). *)

Record date : Type := mkDate {
  d_year : Z;
  d_month : Z;
  d_day : Z
}.

Record SnpRow : Type := mkSnpRow {
  Open : Q;
  Close : Q
}.

Definition date_ltb (a b : date) : bool :=
  (d_year a <? d_year b)
  || ((d_year a =? d_year b)
      && ((d_month a <? d_month b)
          || ((d_month a =? d_month b) && (d_day a <? d_day b)))).

Fixpoint min_from (best : date * SnpRow) (l : list (date * SnpRow))
    : date * SnpRow :=
  match l with
  | [] => best
  | x :: rest => min_from (if date_ltb (fst x) (fst best) then x else best) rest
  end.

Fixpoint max_from (best : date * SnpRow) (l : list (date * SnpRow))
    : date * SnpRow :=
  match l with
  | [] => best
  | x :: rest => max_from (if date_ltb (fst best) (fst x) then x else best) rest
  end.

Definition min_by_date (l : list (date * SnpRow)) : option (date * SnpRow) :=
  match l with
  | [] => None
  | x :: rest => Some (min_from x rest)
  end.

Definition max_by_date (l : list (date * SnpRow)) : option (date * SnpRow) :=
  match l with
  | [] => None
  | x :: rest => Some (max_from x rest)
  end.

(** [sorted(set(x[0].year for x in all_dates))] *)
Definition sample_years (all_dates : list (date * SnpRow)) : list Z :=
  merge_sort Z.le
    (elements (list_to_set (map (fun x => d_year (fst x)) all_dates) : gset Z)).

(** [[x for x in all_dates if x[0].year == year]] *)
Definition samples_of (all_dates : list (date * SnpRow)) (y : Z)
    : list (date * SnpRow) :=
  List.filter (fun x => d_year (fst x) =? y) all_dates.

(** The body of the loop over the years: the record stored for the year. *)
Definition snp_year_of (all_dates : list (date * SnpRow)) (y : Z)
    : option SnpYear :=
  let samples := samples_of all_dates y in
  match min_by_date samples with
  | None => None
  | Some open_entry =>
      match max_by_date samples with
      | None => None
      | Some close_entry =>
          Some (mkSnpYear y (Open (snd open_entry)) (Close (snd close_entry)))
      end
  end.

Fixpoint snp_years (all_dates : list (date * SnpRow)) (years : list Z)
    (table : gmap Z SnpYear) : option (gmap Z SnpYear) :=
  match years with
  | [] => Some table
  | y :: rest =>
      match snp_year_of all_dates y with
      | None => None
      | Some r => snp_years all_dates rest (<[y := r]> table)
      end
  end.

Definition load_snp_yearly (all_dates : list (date * SnpRow))
    : option (gmap Z SnpYear) :=
  snp_years all_dates (sample_years all_dates) ∅.

(** The order of the dates, for statements. *)
Definition date_lt (a b : date) : Prop :=
  d_year a < d_year b
  \/ (d_year a = d_year b
      /\ (d_month a < d_month b
          \/ (d_month a = d_month b /\ d_day a < d_day b))).

(** What the loop stores for a year that has a sample. *)
Definition opens_and_closes (all_dates : list (date * SnpRow)) (y : Z)
    (r : SnpYear) : Prop :=
  year r = y
  /\ exists open_entry close_entry : date * SnpRow,
       open_entry ∈ all_dates /\ d_year (fst open_entry) = y
       /\ close_entry ∈ all_dates /\ d_year (fst close_entry) = y
       /\ open r = Open (snd open_entry)
       /\ close r = Close (snd close_entry)
       /\ forall x, x ∈ all_dates -> d_year (fst x) = y ->
            ~ date_lt (fst x) (fst open_entry)
            /\ ~ date_lt (fst close_entry) (fst x).

(** A sheet for the examples: a row for 2000 with 3% in January and 5% in
    February and nothing else, and a row for 2001 with no value at all; a
    [float] that reads these two numbers. *)
Definition two_numbers (s : string) : option Q :=
  if String.eqb s "3" then Some 3%Q
  else if String.eqb s "5" then Some 5%Q
  else None.

Definition row_2000 : InflationRow :=
  mkInflationRow 2000
    (fun month => if String.eqb month "Jan" then CellStr "3%"
                  else if String.eqb month "Feb" then CellStr "5%"
                  else CellOther).

Definition row_2001 : InflationRow :=
  mkInflationRow 2001 (fun _ => CellOther).

(** * The same code in binary64

    Python's [float] is IEEE 754 binary64, and so is the kernel's primitive
    [float]: [+], [-], [*], [/] and the comparisons below are the operations
    the interpreter performs, each rounded to nearest, ties to even, with
    their infinities, signed zeros and NaN.  The module re-reads the clock,
    the ledger, [go] and the inflation helpers with these operations; what is
    said about amounts in the first part of the file is said of exact
    arithmetic, what is said here is said of the numbers the program
    computes. *)

Module Binary64.

Local Open Scope float_scope.

(** ** Exceptions *)

Inductive exn : Type :=
  | KeyError (key : Z)
  | ZeroDivisionError
  | AssertionError
  | OverflowError
  | ValueError.

Inductive result (A : Type) : Type :=
  | Ok (a : A)
  | Raise (e : exn).
Arguments Ok {A} a.
Arguments Raise {A} e.

Definition bind {A B : Type} (r : result A) (k : A -> result B) : result B :=
  match r with
  | Ok a => k a
  | Raise e => Raise e
  end.

Declare Scope binary64_scope.
Notation "'let*' x ':=' r 'in' k" := (bind r (fun x => k))
  (at level 10, x pattern, r at level 100, k at level 200) : binary64_scope.
Local Open Scope binary64_scope.

(** [d[k]] *)
Definition getitem {V : Type} (d : gmap Z V) (k : Z) : result V :=
  match d !! k with
  | Some v => Ok v
  | None => Raise (KeyError k)
  end.

(** ** Numbers *)

(** The conversion of an [int] that meets a [float] in an arithmetic
    operation: the nearest binary64 number, ties to even, and
    [OverflowError] when the integer is too large for one. *)
Definition of_int (z : Z) : result float :=
  let x := SF2Prim (binary_normalize prec emax z 0 false) in
  if is_infinity x then Raise OverflowError else Ok x.

(** [math.floor] and [math.ceil]: the integer below and above the number
    [(-1)^s * m * 2^e]; [OverflowError] for an infinity and [ValueError] for
    NaN. *)
Definition floor (x : float) : result Z :=
  match Prim2SF x with
  | S754_zero _ => Ok 0%Z
  | S754_finite s m e =>
      Ok (if (0 <=? e)%Z then (cond_Zopp s (Z.pos m) * 2 ^ e)%Z
          else (cond_Zopp s (Z.pos m) / 2 ^ (- e))%Z)
  | S754_infinity _ => Raise OverflowError
  | S754_nan => Raise ValueError
  end.

Definition ceil (x : float) : result Z :=
  match Prim2SF x with
  | S754_zero _ => Ok 0%Z
  | S754_finite s m e =>
      Ok (if (0 <=? e)%Z then (cond_Zopp s (Z.pos m) * 2 ^ e)%Z
          else (- ((- cond_Zopp s (Z.pos m)) / 2 ^ (- e)))%Z)
  | S754_infinity _ => Raise OverflowError
  | S754_nan => Raise ValueError
  end.

(** [a / b] on floats: a divisor that is zero, of either sign, raises. *)
Definition truediv (a b : float) : result float :=
  if b =? 0 then Raise ZeroDivisionError else Ok (a / b).

(** ** class SnpYear *)

Record SnpYear : Type := mkSnpYear {
  year : Z;
  open : float;
  close : float
}.

(** ** class Market *)

Record Market : Type := mkMarket {
  _cur_year : Z;
  _at_start_of_year : bool;
  _snp_yearly : gmap Z SnpYear;
  _year_to_inflation : gmap Z float
}.

(** [Market.__init__] *)
Definition Market_init (snp_yearly : gmap Z SnpYear) (start_year : Z)
    (year_to_inflation : gmap Z float) : Market :=
  {| _cur_year := start_year;
     _at_start_of_year := true;
     _snp_yearly := snp_yearly;
     _year_to_inflation := year_to_inflation |}.

Definition move_to_next_year (m : Market) : Market :=
  {| _cur_year := _cur_year m + 1;
     _at_start_of_year := true;
     _snp_yearly := _snp_yearly m;
     _year_to_inflation := _year_to_inflation m |}.

Definition move_to_end_of_current_year (m : Market) : Market :=
  {| _cur_year := _cur_year m;
     _at_start_of_year := false;
     _snp_yearly := _snp_yearly m;
     _year_to_inflation := _year_to_inflation m |}.

Definition current_inflation (m : Market) : result float :=
  getitem (_year_to_inflation m) (_cur_year m).

Definition current_price (m : Market) : result float :=
  if _at_start_of_year m then
    let* y := getitem (_snp_yearly m) (_cur_year m) in Ok (open y)
  else
    let* y := getitem (_snp_yearly m) (_cur_year m) in Ok (close y).

(** ** class InvestmentAccount *)

Record InvestmentAccount : Type := mkAccount {
  _cash : float;
  _num_shares : Z
}.

(** [InvestmentAccount.__init__] *)
Definition InvestmentAccount_init (starting_cash : float) : InvestmentAccount :=
  {| _cash := starting_cash; _num_shares := 0 |}.

Definition cash_available (a : InvestmentAccount) : float := _cash a.

Definition num_shares_owned (a : InvestmentAccount) : Z := _num_shares a.

(** [self._cash + self._num_shares * self._market.current_price]: the share
    count is converted for the product. *)
Definition net_worth (m : Market) (a : InvestmentAccount) : result float :=
  let* p := current_price m in
  let* n := of_int (_num_shares a) in
  Ok (_cash a + n * p).

(** The debug line reads [current_price] first.  The [assert] compares the
    cash with the rounded product, and the same product is then taken from
    the cash. *)
Definition buy_stock (m : Market) (num_shares : Z) (a : InvestmentAccount)
    : result InvestmentAccount :=
  let* p := current_price m in
  let* n := of_int num_shares in
  if p * n <=? _cash a then
    Ok {| _cash := _cash a - p * n;
          _num_shares := _num_shares a + num_shares |}
  else Raise AssertionError.

(** The debug line reads [current_price] and [net_worth] before the test on
    the share count. *)
Definition sell_stock (m : Market) (num_shares : Z) (a : InvestmentAccount)
    : result (bool * InvestmentAccount) :=
  let* p := current_price m in
  let* _ := net_worth m a in
  if (_num_shares a <? num_shares)%Z then Ok (false, a)
  else
    let* n := of_int num_shares in
    Ok (true, {| _cash := _cash a + p * n;
                 _num_shares := _num_shares a - num_shares |}).

Definition spend_cash (amount : float) (a : InvestmentAccount)
    : bool * InvestmentAccount :=
  if _cash a <? amount then (false, a)
  else (true, {| _cash := _cash a - amount; _num_shares := _num_shares a |}).

(** ** Process-wide configuration and external library calls *)

Record Globals : Type := mkGlobals {
  SPENDING_PERCENTAGE : float;
  SPEND_FIXED_REAL_AMOUNT : bool;
  snp_yearly : gmap Z SnpYear;
  year_to_inflation : gmap Z float
}.

(** [STARTING_CASH = 1e6] *)
Definition STARTING_CASH : float := 1000000.

(** [cli]: the percentage given on the command line is divided by 100. *)
Definition cli (spending_percentage : float) (spend_fixed_real_amount : bool)
    (snp : gmap Z SnpYear) (inflation : gmap Z float) : Globals :=
  {| SPENDING_PERCENTAGE := spending_percentage / 100;
     SPEND_FIXED_REAL_AMOUNT := spend_fixed_real_amount;
     snp_yearly := snp;
     year_to_inflation := inflation |}.

(** [termcolor.colored] and the float case of Python's [format(x, spec)]. *)
Class Externals : Type := {
  colored : string -> string -> string;
  format_float : string -> float -> string
}.

Section Strategy.
Context `{Externals}.
Variable g : Globals.

Definition dollarstr (amount : float) : string := "$" +:+ format_float ",.0f" amount.

Definition dollarstr_decimal (amount : float) : string :=
  "$" +:+ format_float ",.2f" amount.

Definition percentstr (percent : float) : string :=
  format_float ".2f" (percent * 100) +:+ "%".

Definition nl : string := String (Ascii.ascii_of_nat 10) EmptyString.

Definition debug_header : list cell :=
  [ CStr "year";
    CStr "start # shares";
    CStr ("start net worth" +:+ nl +:+ "(nominal)");
    CStr ("start-of-year" +:+ nl +:+ "withdrawal" +:+ nl +:+ "(inflation-adjusted cash to spend)");
    CStr ("start-of-year" +:+ nl +:+ "withdrawal" +:+ nl +:+ "(shares sold)");
    CStr "unspent cash";
    CStr "start share price";
    CStr "end share price";
    CStr "inflation %";
    CStr "end # shares";
    CStr ("end net worth" +:+ nl +:+ "(nominal)") ].

(** The variables of [BuyAndHoldStrategy.go] that live across iterations of
    the loop, together with the two objects the loop mutates. *)
Record LoopState : Type := mkLoopState {
  account : InvestmentAccount;
  market : Market;
  fixed_real_withdrawal : float;
  debug_info : list (list cell)
}.

(** [this_year_withdrawal], as the loop computes it at the start of a year. *)
Definition this_year_withdrawal (s : LoopState) : result float :=
  let* net := net_worth (market s) (account s) in
  let constant_percent_withdrawal := net * SPENDING_PERCENTAGE g in
  Ok (if SPEND_FIXED_REAL_AMOUNT g then fixed_real_withdrawal s
      else constant_percent_withdrawal).

(** [num_shares_to_sell]: [math.ceil] of the rounded quotient. *)
Definition num_shares_to_sell (withdrawal : float) (s : LoopState) : result Z :=
  let* p := current_price (market s) in
  let* q := truediv (withdrawal - cash_available (account s)) p in
  ceil q.

(** One iteration of the [for year in range(...)] loop.  [Some ret] is a
    [break] with the value given to [ret]; [None] falls through to the next
    year. *)
Definition year_body (year : Z) (s : LoopState)
    : result (option (bool * string) * LoopState) :=
  let start_shares := num_shares_owned (account s) in
  let* start_net_worth := net_worth (market s) (account s) in
  let* withdrawal := this_year_withdrawal s in
  let* n := num_shares_to_sell withdrawal s in
  let* sold := sell_stock (market s) n (account s) in
  if negb (fst sold) then
    Ok (Some (false, colored ("ran short in " +:+ pretty year) "red"),
        mkLoopState (snd sold) (market s) (fixed_real_withdrawal s) (debug_info s))
  else
  let spent := spend_cash withdrawal (snd sold) in
  if negb (fst spent) then
    Ok (Some (false, colored "failed to spend cash?" "yellow"),
        mkLoopState (snd spent) (market s) (fixed_real_withdrawal s) (debug_info s))
  else
  let a := snd spent in
  let* start_share_price := current_price (market s) in
  let m := move_to_end_of_current_year (market s) in
  let* end_share_price := current_price m in
  let* inflation := current_inflation m in
  let* end_net_worth := net_worth m a in
  let row :=
    [ CInt year;
      CInt start_shares;
      CStr (dollarstr start_net_worth);
      CStr (dollarstr withdrawal);
      CInt n;
      CStr (dollarstr (cash_available a));
      CStr (dollarstr_decimal start_share_price);
      CStr (dollarstr_decimal end_share_price);
      CStr (percentstr inflation);
      CInt (num_shares_owned a);
      CStr (dollarstr end_net_worth) ] in
  let* inflation' := current_inflation m in
  Ok (None,
      mkLoopState a (move_to_next_year m)
        (fixed_real_withdrawal s * (1 + inflation'))
        (debug_info s ++ [row])).

(** The [for] loop: [ret] keeps its initial value unless an iteration
    breaks. *)
Fixpoint loop (years : list Z) (ret : bool * string) (s : LoopState)
    : result ((bool * string) * LoopState) :=
  match years with
  | [] => Ok (ret, s)
  | year :: rest =>
      let* r := year_body year s in
      match fst r with
      | Some ret' => Ok (ret', snd r)
      | None => loop rest ret (snd r)
      end
  end.

(** The state in which the loop is entered: [math.floor] of the rounded
    quotient is bought right away. *)
Definition go_init (a : InvestmentAccount) (m : Market) : result LoopState :=
  let fixed_real_withdrawal := cash_available a * SPENDING_PERCENTAGE g in
  let* p := current_price m in
  let* q := truediv (cash_available a) p in
  let* n := floor q in
  let* a' := buy_stock m n a in
  Ok (mkLoopState a' m fixed_real_withdrawal [debug_header]).

(** [BuyAndHoldStrategy.go] *)
Definition go (a : InvestmentAccount) (m : Market) (start_year num_years : Z)
    : result ((bool * string) * LoopState) :=
  let* s := go_init a m in
  loop (seqZ start_year num_years) (true, "") s.

(** ** Inflation *)

(** The loop of [get_inflation_percentage], from the product it has
    reached. *)
Fixpoint compound (years : list Z) (percent : float) : result float :=
  match years with
  | [] => Ok percent
  | y :: rest =>
      let* rate := getitem (year_to_inflation g) y in
      compound rest (percent * (1 + rate))
  end.

Definition get_inflation_percentage (start_year num_years : Z) : result float :=
  compound (seqZ start_year num_years) 1.

(** [start * (1. / get_inflation_percentage(start_year, num_years))] *)
Definition nominal_to_real (start : float) (start_year num_years : Z)
    : result float :=
  let* percent := get_inflation_percentage start_year num_years in
  let* inv := truediv 1 percent in
  Ok (start * inv).

End Strategy.

(** The entry of year [y] in the inflation table, read as 0 where there is
    none. *)
Definition rate_of (g : Globals) (y : Z) : float :=
  default 0 (year_to_inflation g !! y).

(** ** Reading a float as a number *)




(** [0 <= x], as the interpreter tests it: false for NaN, true for both
    zeros and for plus infinity. *)
Definition nonneg (x : float) : Prop := (0 <=? x) = true.



(** ** What can end a run *)

(** A result that is a value or one of the exceptions that arithmetic can
    raise: the [assert] of [buy_stock] and the errors of the conversions
    between [int] and [float]. *)
Definition arithmetic_only {A : Type} (r : result A) : Prop :=
  match r with
  | Ok _ => True
  | Raise AssertionError | Raise OverflowError | Raise ValueError => True
  | Raise (KeyError _) | Raise ZeroDivisionError => False
  end.

(** A state of the loop on the tables of [m], whose clock stands in a year
    with a price record and an inflation entry. *)
Definition covered (m : Market) (s : LoopState) : Prop :=
  _snp_yearly (market s) = _snp_yearly m
  /\ _year_to_inflation (market s) = _year_to_inflation m
  /\ is_Some (_snp_yearly m !! _cur_year (market s))
  /\ is_Some (_year_to_inflation m !! _cur_year (market s)).

(** ** Sample data

    Prices and rates as the csv reader delivers them, each written as the
    binary64 number that the decimal in the comment is read as. *)

Definition plain_text : Externals :=
  {| colored := fun text _ => text;
     format_float := fun _ _ => "#" |}.

(** 24390.243902439026 *)
Definition price_24390 : float := 0x1.7d18f9c18f9c2p+14.

(** 145.14 *)
Definition price_145 : float := 0x1.2247ae147ae14p+7.



(** 0.05 *)
Definition five_percent_rate : float := 0x1.999999999999ap-5.

(** A price table with one price per year for 2000, and for 2000 and
    2001. *)
Definition one_year (p : float) : gmap Z SnpYear :=
  {[ 2000%Z := mkSnpYear 2000 p p ]}.

Definition two_years (p q : float) : gmap Z SnpYear :=
  {[ 2000%Z := mkSnpYear 2000 p p; 2001%Z := mkSnpYear 2001 q q ]}.

Definition no_inflation : gmap Z float := {[ 2000%Z := 0; 2001%Z := 0 ]}.

Definition five_percent : gmap Z float := {[ 2000%Z := five_percent_rate ]}.

Definition fresh_account : InvestmentAccount := InvestmentAccount_init STARTING_CASH.

End Binary64.

(** * Properties *)

(** ** Reading the results of the basic operations *)

Lemma Ok_inj {A : Type} (x y : A) : Ok x = Ok y -> x = y.
Proof. now intros [= ->]. Qed.

Lemma bind_Ok {A B : Type} (r : result A) (k : A -> result B) (b : B) :
  bind r k = Ok b -> exists a, r = Ok a /\ k a = Ok b.
Proof. destruct r as [a|e]; simpl; intros Hb; [eauto | discriminate]. Qed.

Lemma truediv_Ok (a b q : Q) :
  truediv a b = Ok q -> ~ (b == 0)%Q /\ q = (a / b)%Q.
Proof.
  unfold truediv. destruct (Qeq_bool b 0) eqn:Hb; [discriminate|].
  intros [= <-]. split; [|reflexivity]. now apply Qeq_bool_neq.
Qed.

Lemma truediv_pos (a b : Q) : (0 < b)%Q -> truediv a b = Ok (a / b)%Q.
Proof.
  intros Hb. unfold truediv. destruct (Qeq_bool b 0) eqn:E; [|reflexivity].
  apply Qeq_bool_eq in E. rewrite E in Hb. now apply Qlt_irrefl in Hb.
Qed.

Lemma Qltb_true (a b : Q) : Qltb a b = true <-> (a < b)%Q.
Proof.
  unfold Qltb. rewrite negb_true_iff, <- not_true_iff_false, Qle_bool_iff.
  split; [apply Qnot_le_lt | apply Qlt_not_le].
Qed.

Lemma Qltb_false (a b : Q) : Qltb a b = false <-> (b <= a)%Q.
Proof. unfold Qltb. now rewrite negb_false_iff, Qle_bool_iff. Qed.

(** Rounding a quotient of amounts to a share count. *)

Lemma ceiling_covers (x p : Q) :
  (0 < p)%Q -> (x <= p * inject_Z (Qceiling (x / p)))%Q.
Proof.
  intros Hp. pose proof (Qle_ceiling (x / p)) as Hc.
  apply (Qmult_le_compat_r _ _ p) in Hc; [|lra].
  assert (Hx : (x / p * p == x)%Q) by (field; lra).
  rewrite Hx in Hc. lra.
Qed.

Lemma floor_affordable (c p : Q) :
  (0 < p)%Q -> (p * inject_Z (Qfloor (c / p)) <= c)%Q.
Proof.
  intros Hp. pose proof (Qfloor_le (c / p)) as Hf.
  apply (Qmult_le_compat_r _ _ p) in Hf; [|lra].
  assert (Hx : (c / p * p == c)%Q) by (field; lra).
  rewrite Hx in Hf. lra.
Qed.

Lemma floor_remainder (c p : Q) :
  (0 < p)%Q -> (c - p * inject_Z (Qfloor (c / p)) < p)%Q.
Proof.
  intros Hp. pose proof (Qlt_floor (c / p)) as Hf.
  rewrite inject_Z_plus in Hf.
  apply (Qmult_lt_compat_r _ _ p) in Hf; [|lra].
  assert (Hx : (c / p * p == c)%Q) by (field; lra).
  rewrite Hx in Hf. change (inject_Z 1) with 1%Q in Hf. lra.
Qed.

Lemma floor_nonneg (c p : Q) :
  (0 < p)%Q -> (0 <= c)%Q -> 0 <= Qfloor (c / p).
Proof.
  intros Hp Hc. change 0 with (Qfloor 0). apply Qfloor_resp_le.
  apply Qle_shift_div_l; lra.
Qed.

Lemma current_price_lookup (m : Market) (y : SnpYear) :
  _snp_yearly m !! _cur_year m = Some y ->
  current_price m = Ok (if _at_start_of_year m then open y else close y).
Proof.
  intros Hy. unfold current_price, getitem. rewrite Hy.
  now destruct (_at_start_of_year m).
Qed.

Lemma net_worth_price (m : Market) (a : InvestmentAccount) (p : Q) :
  current_price m = Ok p ->
  net_worth m a = Ok (_cash a + inject_Z (_num_shares a) * p)%Q.
Proof. intros Hp. unfold net_worth. now rewrite Hp. Qed.

Lemma move_to_end_iter (k : nat) (m : Market) :
  Nat.iter (S k) move_to_end_of_current_year m = move_to_end_of_current_year m.
Proof.
  induction k as [|k IH]; [reflexivity|].
  change (Nat.iter (S (S k)) move_to_end_of_current_year m)
    with (move_to_end_of_current_year (Nat.iter (S k) move_to_end_of_current_year m)).
  now rewrite IH.
Qed.

(** ** The market clock *)

(** C7: when the clock's year has a price record, [current_price] is that
    year's open price in the start-of-year phase and its close price in the
    end-of-year phase; however often [move_to_end_of_current_year] is called
    (once or more), the clock stays in the same year at its end and the price
    is the close price; [move_to_next_year] adds one to the year and sets the
    phase back to start, leaving the two tables alone. *)
Theorem current_price_by_phase (m : Market) (y : SnpYear) :
  _snp_yearly m !! _cur_year m = Some y ->
  (_at_start_of_year m = true -> current_price m = Ok (open y))
  /\ (_at_start_of_year m = false -> current_price m = Ok (close y))
  /\ (forall k : nat,
        Nat.iter (S k) move_to_end_of_current_year m = move_to_end_of_current_year m
        /\ current_price (Nat.iter (S k) move_to_end_of_current_year m) = Ok (close y))
  /\ move_to_next_year m
     = mkMarket (_cur_year m + 1) true (_snp_yearly m) (_year_to_inflation m).
Proof.
  intros Hy. pose proof (current_price_lookup m y Hy) as Hp.
  repeat split.
  - intros Hs. now rewrite Hs in Hp.
  - intros Hs. now rewrite Hs in Hp.
  - apply move_to_end_iter.
  - rewrite move_to_end_iter.
    now apply (current_price_lookup (move_to_end_of_current_year m) y).
Qed.

Lemma current_price_by_phase_witness :
  current_price market_2000 = Ok 100%Q
  /\ current_price
       (move_to_end_of_current_year (move_to_end_of_current_year market_2000))
     = Ok 110%Q
  /\ _cur_year (move_to_next_year market_2000) = 2001.
Proof.
  pose proof (current_price_by_phase market_2000 (mkSnpYear 2000 100 110) eq_refl)
    as (Hstart & _ & Hend & Hnext).
  split; [exact (Hstart eq_refl)|].
  split; [exact (proj2 (Hend 1%nat))|].
  now rewrite Hnext.
Defined.

(** ** The account *)

Lemma sell_stock_cases (m : Market) (a : InvestmentAccount) (n : Z) (p : Q) :
  current_price m = Ok p ->
  sell_stock m n a
  = if _num_shares a <? n then Ok (false, a)
    else Ok (true, {| _cash := (_cash a + p * inject_Z n)%Q;
                      _num_shares := _num_shares a - n |}).
Proof.
  intros Hp. unfold sell_stock. now rewrite (net_worth_price m a p Hp), Hp.
Qed.

Lemma sell_stock_enough (m : Market) (a : InvestmentAccount) (n : Z) (p : Q) :
  current_price m = Ok p -> n <= _num_shares a ->
  sell_stock m n a
  = Ok (true, {| _cash := (_cash a + p * inject_Z n)%Q;
                 _num_shares := _num_shares a - n |}).
Proof.
  intros Hp Hn. rewrite (sell_stock_cases m a n p Hp).
  now destruct (Z.ltb_spec (_num_shares a) n); [lia|].
Qed.

Lemma sell_stock_true (m : Market) (a a1 : InvestmentAccount) (n : Z) (p : Q) :
  current_price m = Ok p -> sell_stock m n a = Ok (true, a1) ->
  n <= _num_shares a
  /\ a1 = {| _cash := (_cash a + p * inject_Z n)%Q;
             _num_shares := _num_shares a - n |}.
Proof.
  intros Hp Hsell. rewrite (sell_stock_cases m a n p Hp) in Hsell.
  destruct (Z.ltb_spec (_num_shares a) n); [discriminate|].
  apply Ok_inj, pair_equal_spec in Hsell as [_ <-]. now split.
Qed.

Lemma sell_stock_false (m : Market) (a a1 : InvestmentAccount) (n : Z) :
  sell_stock m n a = Ok (false, a1) -> a1 = a /\ _num_shares a < n.
Proof.
  unfold sell_stock. intros Hsell.
  apply bind_Ok in Hsell as (p & _ & Hsell).
  apply bind_Ok in Hsell as (v & _ & Hsell).
  destruct (Z.ltb_spec (_num_shares a) n); [|discriminate].
  apply Ok_inj, pair_equal_spec in Hsell as [_ <-]. now split.
Qed.



(** In exact arithmetic: with the clock held fixed, a [buy_stock n] that
    goes through and a [sell_stock n] that returns [True] leave [net_worth]
    exactly as it was,
    for every count [n] (the non-negative ones included); a [spend_cash] that
    returns [True] lowers it by the amount spent.  The remaining way for
    [net_worth] to change is the price read from the clock. *)
Theorem trades_keep_net_worth (m : Market) (a : InvestmentAccount) :
  (forall (n : Z) (a' : InvestmentAccount),
      buy_stock m n a = Ok a' \/ sell_stock m n a = Ok (true, a') ->
      exists v v' : Q,
        net_worth m a = Ok v /\ net_worth m a' = Ok v' /\ (v' == v)%Q)
  /\ (forall (amount v : Q) (a' : InvestmentAccount),
        spend_cash amount a = (true, a') ->
        net_worth m a = Ok v ->
        exists v' : Q, net_worth m a' = Ok v' /\ (v' == v - amount)%Q).
Proof.
  split.
  - intros n a' [Hbuy | Hsell].
    + unfold buy_stock in Hbuy. apply bind_Ok in Hbuy as (p & Hp & Hbuy).
      destruct (Qle_bool _ _); [|discriminate]. injection Hbuy as <-.
      rewrite !(net_worth_price m _ p Hp). do 2 eexists. repeat split.
      simpl. rewrite inject_Z_plus. ring.
    + unfold sell_stock in Hsell. apply bind_Ok in Hsell as (p & Hp & Hsell).
      apply bind_Ok in Hsell as (v & _ & Hsell).
      destruct (_ <? _); [discriminate|]. injection Hsell as <-.
      rewrite !(net_worth_price m _ p Hp). do 2 eexists. repeat split.
      simpl. unfold Z.sub. rewrite inject_Z_plus, inject_Z_opp. ring.
  - intros amount v a' Hspend Hv. unfold spend_cash in Hspend.
    destruct (Qltb _ _); [discriminate|]. injection Hspend as <-.
    unfold net_worth in *. apply bind_Ok in Hv as (p & Hp & Hv).
    rewrite Hp. simpl. injection Hv as <-. eexists. split; [reflexivity|].
    simpl. ring.
Qed.

Lemma trades_keep_net_worth_witness :
  exists v v' : Q,
    net_worth market_2000 (mkAccount 350 0) = Ok v
    /\ net_worth market_2000 (mkAccount (350 - 100 * inject_Z 3) (0 + 3)) = Ok v'
    /\ (v' == v)%Q.
Proof.
  apply (proj1 (trades_keep_net_worth market_2000 (mkAccount 350 0)) 3).
  left. reflexivity.
Defined.

(** ** The strategy *)

Section Properties.
Context `{Externals}.
Variable g : Globals.

(** No step of the loop can raise [AssertionError]: the only [assert] is in
    [buy_stock], which the loop does not call. *)

Lemma bind_no_assert {A B : Type} (r : result A) (k : A -> result B) :
  no_assert r -> (forall a, no_assert (k a)) -> no_assert (bind r k).
Proof.
  unfold no_assert. destruct r as [a|e]; simpl; intros Hr Hk; [apply Hk|].
  intros [= ->]. now apply Hr.
Qed.

Lemma getitem_no_assert {V : Type} (d : gmap Z V) (k : Z) : no_assert (getitem d k).
Proof. unfold no_assert, getitem. destruct (d !! k); discriminate. Qed.

Lemma current_price_no_assert (m : Market) : no_assert (current_price m).
Proof.
  unfold current_price.
  destruct (_at_start_of_year m);
    (apply bind_no_assert; [apply getitem_no_assert | discriminate]).
Qed.

Lemma net_worth_no_assert (m : Market) (a : InvestmentAccount) :
  no_assert (net_worth m a).
Proof.
  apply bind_no_assert; [apply current_price_no_assert | discriminate].
Qed.

Lemma truediv_no_assert (a b : Q) : no_assert (truediv a b).
Proof. unfold no_assert, truediv. destruct (Qeq_bool b 0); discriminate. Qed.

Lemma sell_stock_no_assert (m : Market) (n : Z) (a : InvestmentAccount) :
  no_assert (sell_stock m n a).
Proof.
  apply bind_no_assert; [apply current_price_no_assert|]. intros p.
  apply bind_no_assert; [apply net_worth_no_assert|]. intros _.
  destruct (_ <? _); discriminate.
Qed.

Lemma year_body_no_assert (y : Z) (s : LoopState) : no_assert (year_body g y s).
Proof.
  unfold year_body.
  apply bind_no_assert; [apply net_worth_no_assert|]. intros v.
  apply bind_no_assert.
  { apply bind_no_assert; [apply net_worth_no_assert | discriminate]. }
  intros w. apply bind_no_assert.
  { apply bind_no_assert; [apply current_price_no_assert|]. intros p.
    apply bind_no_assert; [apply truediv_no_assert | discriminate]. }
  intros n. apply bind_no_assert; [apply sell_stock_no_assert|]. intros sold.
  destruct (negb (fst sold)); [discriminate|].
  destruct (negb (fst (spend_cash w (snd sold)))); [discriminate|].
  apply bind_no_assert; [apply current_price_no_assert|]. intros p.
  apply bind_no_assert; [apply current_price_no_assert|]. intros p'.
  apply bind_no_assert; [apply getitem_no_assert|]. intros i.
  apply bind_no_assert; [apply net_worth_no_assert|]. intros v'.
  apply bind_no_assert; [apply getitem_no_assert | discriminate].
Qed.

Lemma loop_no_assert (years : list Z) (ret : bool * string) (s : LoopState) :
  no_assert (loop g years ret s).
Proof.
  revert s. induction years as [|y rest IH]; intros s; simpl; [discriminate|].
  apply bind_no_assert; [apply year_body_no_assert|]. intros [[r|] s'];
    simpl; [discriminate | apply IH].
Qed.

(** In exact arithmetic: with a positive current price and non-negative
    cash, the number of shares of the initial purchase,
    [floor(cash / price)], is non-negative
    and costs at most the cash, so the [assert] of [buy_stock] holds: the
    purchase goes through, what is left as cash is the remainder, which is
    at least zero and less than one share price, and no call of [go] from
    such a state ends in [AssertionError]. *)
Theorem initial_buy_is_affordable (a : InvestmentAccount) (m : Market) (p : Q) :
  current_price m = Ok p -> (0 < p)%Q -> (0 <= _cash a)%Q ->
  let n := Qfloor (cash_available a / p) in
  0 <= n
  /\ (p * inject_Z n <= _cash a)%Q
  /\ (exists a' : InvestmentAccount,
        buy_stock m n a = Ok a'
        /\ go_init g a m
           = Ok (mkLoopState a' m (_cash a * SPENDING_PERCENTAGE g)%Q [debug_header])
        /\ _cash a' = (_cash a - p * inject_Z n)%Q
        /\ (0 <= _cash a')%Q /\ (_cash a' < p)%Q
        /\ _num_shares a' = _num_shares a + n)
  /\ (forall start_year num_years : Z,
        go g a m start_year num_years <> Raise AssertionError).
Proof.
  intros Hp Hpos Hcash n.
  pose proof (floor_affordable (_cash a) p Hpos) as Hle.
  pose proof (floor_remainder (_cash a) p Hpos) as Hlt.
  assert (Hbuy : buy_stock m n a
                 = Ok {| _cash := (_cash a - p * inject_Z n)%Q;
                         _num_shares := _num_shares a + n |}).
  { unfold buy_stock. rewrite Hp. simpl.
    apply Qle_bool_iff in Hle. unfold n, cash_available. now rewrite Hle. }
  assert (Hinit : go_init g a m
                  = Ok (mkLoopState
                          {| _cash := (_cash a - p * inject_Z n)%Q;
                             _num_shares := _num_shares a + n |}
                          m (_cash a * SPENDING_PERCENTAGE g)%Q [debug_header])).
  { unfold go_init. rewrite Hp. cbn [bind].
    rewrite (truediv_pos _ p Hpos). cbn [bind]. fold n. now rewrite Hbuy. }
  split; [now apply floor_nonneg|]. split; [exact Hle|]. split.
  - eexists. split; [exact Hbuy|]. split; [exact Hinit|]. simpl.
    split; [reflexivity|]. unfold n, cash_available. repeat split; lra.
  - intros start_year num_years. unfold go. rewrite Hinit. simpl.
    apply loop_no_assert.
Qed.

Lemma num_shares_to_sell_Ok (w : Q) (s : LoopState) (n : Z) :
  num_shares_to_sell w s = Ok n ->
  exists p : Q,
    current_price (market s) = Ok p /\ ~ (p == 0)%Q
    /\ n = Qceiling ((w - cash_available (account s)) / p).
Proof.
  unfold num_shares_to_sell. intros Hn.
  apply bind_Ok in Hn as (p & Hp & Hn). apply bind_Ok in Hn as (q & Hq & Hn).
  apply truediv_Ok in Hq as [Hne ->]. apply Ok_inj in Hn as <-. now exists p.
Qed.

Lemma sale_covers_withdrawal (s : LoopState) (p w : Q) (a1 : InvestmentAccount) :
  current_price (market s) = Ok p -> (0 < p)%Q ->
  sell_stock (market s) (Qceiling ((w - cash_available (account s)) / p)) (account s)
  = Ok (true, a1) ->
  (w <= _cash a1)%Q.
Proof.
  intros Hp Hpos Hsell.
  apply (sell_stock_true _ _ _ _ p Hp) in Hsell as [_ ->]. cbn [_cash].
  pose proof (ceiling_covers (w - cash_available (account s)) p Hpos) as Hc.
  unfold cash_available in *. lra.
Qed.

Lemma spend_cash_covered (w : Q) (a1 : InvestmentAccount) :
  (w <= _cash a1)%Q ->
  spend_cash w a1
  = (true, {| _cash := (_cash a1 - w)%Q; _num_shares := _num_shares a1 |}).
Proof. intros Hw. unfold spend_cash. apply Qltb_false in Hw. now rewrite Hw. Qed.

(** In exact arithmetic: in a year whose current price is positive, once
    [sell_stock] has returned [True] for the count
    [ceil((withdrawal - cash) / price)], the
    cash covers the withdrawal, [spend_cash] returns [True], and the
    iteration does not [break]: it neither reports a shortfall nor takes the
    "failed to spend cash?" branch. *)
Theorem spend_after_sale_succeeds (year : Z) (s : LoopState) (p w : Q)
    (a1 : InvestmentAccount) :
  current_price (market s) = Ok p -> (0 < p)%Q ->
  this_year_withdrawal g s = Ok w ->
  sell_stock (market s) (Qceiling ((w - cash_available (account s)) / p)) (account s)
  = Ok (true, a1) ->
  num_shares_to_sell w s = Ok (Qceiling ((w - cash_available (account s)) / p))
  /\ (w <= _cash a1)%Q
  /\ spend_cash w a1
     = (true, {| _cash := (_cash a1 - w)%Q; _num_shares := _num_shares a1 |})
  /\ (forall (ret : bool * string) (s' : LoopState),
        year_body g year s <> Ok (Some ret, s')).
Proof.
  intros Hp Hpos Hw Hsell.
  pose proof (sale_covers_withdrawal s p w a1 Hp Hpos Hsell) as Hcover.
  pose proof (spend_cash_covered w a1 Hcover) as Hspend.
  set (n := Qceiling ((w - cash_available (account s)) / p)) in *.
  assert (Hn : num_shares_to_sell w s = Ok n).
  { unfold num_shares_to_sell. rewrite Hp. cbn [bind].
    now rewrite (truediv_pos _ p Hpos). }
  repeat split; try assumption.
  intros ret s' Hbody. unfold year_body in Hbody.
  apply bind_Ok in Hbody as (v & _ & Hbody).
  rewrite Hw in Hbody. cbn [bind] in Hbody. rewrite Hn in Hbody.
  cbn [bind] in Hbody. rewrite Hsell in Hbody. cbn [bind fst snd negb] in Hbody.
  rewrite Hspend in Hbody. cbn [fst snd negb] in Hbody.
  repeat (apply bind_Ok in Hbody as (? & _ & Hbody)). discriminate.
Qed.


(** What the code does with a negative count [n = -k]: the call is a
    purchase of [k] shares at the current price. *)
Lemma negative_sale_is_a_purchase (m : Market) (a : InvestmentAccount) (n : Z) (p : Q) :
  current_price m = Ok p -> (0 < p)%Q -> 0 <= _num_shares a -> n < 0 ->
  exists a' : InvestmentAccount,
    sell_stock m n a = Ok (true, a')
    /\ (_cash a' == _cash a - inject_Z (- n) * p)%Q
    /\ (_cash a' < _cash a)%Q
    /\ _num_shares a' = _num_shares a + - n.
Proof.
  intros Hp Hpos Hshares Hneg. eexists. split.
  { apply (sell_stock_enough m a n p Hp). lia. }
  simpl. rewrite inject_Z_opp.
  assert (Hk : (inject_Z n < 0)%Q).
  { change 0%Q with (inject_Z 0). now rewrite <- Zlt_Qlt. }
  split; [ring|]. split; [nra | lia].
Qed.

(** ** Inflation *)

Lemma compound_product (rate : Z -> Q) (years : list Z) (percent : Q) :
  (forall y, y ∈ years -> year_to_inflation g !! y = Some (rate y)) ->
  compound g years percent
  = Ok (fold_left Qmult (map (fun y => (1 + rate y)%Q) years) percent).
Proof.
  revert percent. induction years as [|y rest IH]; intros percent Hrate;
    [reflexivity|].
  simpl. unfold getitem. rewrite (Hrate y) by apply list_elem_of_here.
  cbn [bind]. apply IH. intros z Hz. apply Hrate. now apply list_elem_of_further.
Qed.

(** In exact arithmetic: when every year from [start_year] to
    [start_year + num_years - 1] has an inflation entry,
    [get_inflation_percentage] returns the
    left-to-right product of [1 + rate y] over those years, and
    [nominal_to_real] returns the amount divided by that product (where the
    product is zero, and the quotient undefined, the call raises
    [ZeroDivisionError]).  For zero years the result is the amount itself,
    whatever the year and the table. *)
Theorem nominal_to_real_divides_by_product (start : Q) (start_year num_years : Z)
    (rate : Z -> Q) :
  (forall y, start_year <= y < start_year + num_years ->
             year_to_inflation g !! y = Some (rate y)) ->
  let factor := compounded_factor rate start_year num_years in
  get_inflation_percentage g start_year num_years = Ok factor
  /\ (~ (factor == 0)%Q ->
      exists real : Q,
        nominal_to_real g start start_year num_years = Ok real
        /\ (real == start / factor)%Q)
  /\ ((factor == 0)%Q ->
      nominal_to_real g start start_year num_years = Raise ZeroDivisionError)
  /\ (forall year : Z,
        exists real : Q,
          nominal_to_real g start year 0 = Ok real /\ (real == start)%Q).
Proof.
  intros Hrate factor.
  assert (Hpct : get_inflation_percentage g start_year num_years = Ok factor).
  { apply compound_product. intros y Hy. apply Hrate. now apply elem_of_seqZ in Hy. }
  split; [exact Hpct|]. unfold nominal_to_real. rewrite Hpct. cbn [bind].
  unfold truediv. split; [|split].
  - intros Hne. destruct (Qeq_bool factor 0) eqn:E.
    + now apply Qeq_bool_eq in E.
    + eexists. split; [reflexivity|]. now field.
  - intros Hz. apply Qeq_eq_bool in Hz. now rewrite Hz.
  - intros year. eexists. split; [reflexivity|]. now field.
Qed.

(** ** One iteration of the loop, read backwards *)

Lemma this_year_withdrawal_Ok (s : LoopState) (w : Q) :
  this_year_withdrawal g s = Ok w ->
  exists net : Q,
    net_worth (market s) (account s) = Ok net
    /\ w = (if SPEND_FIXED_REAL_AMOUNT g then fixed_real_withdrawal s
            else net * SPENDING_PERCENTAGE g)%Q.
Proof.
  unfold this_year_withdrawal. intros Hw.
  apply bind_Ok in Hw as (net & Hnet & Hw). injection Hw as <-. eauto.
Qed.

Lemma year_body_continue (y : Z) (s s' : LoopState) :
  year_body g y s = Ok (None, s') ->
  exists (w : Q) (n : Z) (a1 a2 : InvestmentAccount) (inflation : Q)
         (row : list cell),
    this_year_withdrawal g s = Ok w
    /\ num_shares_to_sell w s = Ok n
    /\ sell_stock (market s) n (account s) = Ok (true, a1)
    /\ spend_cash w a1 = (true, a2)
    /\ current_inflation (move_to_end_of_current_year (market s)) = Ok inflation
    /\ s' = mkLoopState a2
              (move_to_next_year (move_to_end_of_current_year (market s)))
              (fixed_real_withdrawal s * (1 + inflation))%Q
              (debug_info s ++ [row])
    /\ head row = Some (CInt y).
Proof.
  unfold year_body. intros Hbody.
  apply bind_Ok in Hbody as (net & _ & Hbody).
  apply bind_Ok in Hbody as (w & Hw & Hbody).
  apply bind_Ok in Hbody as (n & Hn & Hbody).
  apply bind_Ok in Hbody as ([ok a1] & Hsell & Hbody).
  destruct ok; cbn [fst snd negb] in Hbody; [|discriminate].
  destruct (spend_cash w a1) as [ok a2] eqn:Hspend.
  destruct ok; cbn [fst snd negb] in Hbody; [|discriminate].
  apply bind_Ok in Hbody as (p & _ & Hbody).
  apply bind_Ok in Hbody as (p' & _ & Hbody).
  apply bind_Ok in Hbody as (i & _ & Hbody).
  apply bind_Ok in Hbody as (net' & _ & Hbody).
  apply bind_Ok in Hbody as (i' & Hi & Hbody).
  injection Hbody as <-.
  exists w, n, a1, a2, i'. eexists. repeat split; try eassumption; reflexivity.
Qed.

Lemma year_body_break (y : Z) (s s' : LoopState) (ret : bool * string) :
  year_body g y s = Ok (Some ret, s') ->
  exists (w : Q) (n : Z),
    this_year_withdrawal g s = Ok w
    /\ num_shares_to_sell w s = Ok n
    /\ ((sell_stock (market s) n (account s) = Ok (false, account s)
         /\ ret = (false, colored ("ran short in " +:+ pretty y) "red")
         /\ s' = s)
        \/ (exists a1 : InvestmentAccount,
              sell_stock (market s) n (account s) = Ok (true, a1)
              /\ spend_cash w a1 = (false, a1)
              /\ ret = (false, colored "failed to spend cash?" "yellow")
              /\ s' = mkLoopState a1 (market s) (fixed_real_withdrawal s)
                        (debug_info s))).
Proof.
  unfold year_body. intros Hbody.
  apply bind_Ok in Hbody as (net & _ & Hbody).
  apply bind_Ok in Hbody as (w & Hw & Hbody).
  apply bind_Ok in Hbody as (n & Hn & Hbody).
  apply bind_Ok in Hbody as ([ok a1] & Hsell & Hbody).
  exists w, n. split; [exact Hw|]. split; [exact Hn|].
  destruct ok; cbn [fst snd negb] in Hbody.
  - right. destruct (spend_cash w a1) as [ok a2] eqn:Hspend.
    destruct ok; cbn [fst snd negb] in Hbody.
    + repeat (apply bind_Ok in Hbody as (? & _ & Hbody)). discriminate.
    + injection Hbody as <- <-. exists a1.
      assert (a2 = a1) as ->.
      { unfold spend_cash in Hspend. destruct (Qltb _ _); congruence. }
      repeat split; assumption.
  - left. injection Hbody as <- <-.
    apply sell_stock_false in Hsell as Ha1. destruct Ha1 as [-> _].
    repeat split; [assumption|]. now destruct s.
Qed.

Lemma year_body_break_false (y : Z) (s s' : LoopState) (ret : bool * string) :
  year_body g y s = Ok (Some ret, s') -> fst ret = false.
Proof.
  intros Hbody. apply year_body_break in Hbody
    as (w & n & _ & _ & [(_ & -> & _) | (a1 & _ & _ & -> & _)]); reflexivity.
Qed.

(** ** The loop over a range of years *)

Lemma loop_app (l1 l2 : list Z) (text : string) (s : LoopState) :
  loop g (l1 ++ l2) (true, text) s
  = (let* r := loop g l1 (true, text) s in
     if fst (fst r) then loop g l2 (true, text) (snd r) else Ok r).
Proof.
  revert s. induction l1 as [|y l1 IH]; intros s; [reflexivity|].
  cbn [app loop]. destruct (year_body g y s) as [[[ret|] s']|e] eqn:Hbody;
    cbn [bind fst snd].
  - now rewrite (year_body_break_false _ _ _ _ Hbody).
  - apply IH.
  - reflexivity.
Qed.

Lemma seqZ_snoc (start : Z) (k : nat) :
  seqZ start (Z.of_nat (S k)) = seqZ start (Z.of_nat k) ++ [start + Z.of_nat k].
Proof.
  rewrite Nat2Z.inj_succ, <- Z.add_1_r, seqZ_app by lia. reflexivity.
Qed.

Lemma loop_unbroken (l : list Z) (text : string) (s s' : LoopState) (ret : bool * string) :
  loop g l (true, text) s = Ok (ret, s') -> fst ret = true -> ret = (true, text).
Proof.
  revert s. induction l as [|y l IH]; intros s; cbn [loop].
  - now intros [= <- <-].
  - intros Hloop Hret. apply bind_Ok in Hloop as ([[r|] s1] & Hbody & Hloop);
      cbn [fst snd] in Hloop.
    + injection Hloop as <- <-.
      rewrite (year_body_break_false _ _ _ _ Hbody) in Hret. discriminate.
    + now apply (IH s1).
Qed.

Lemma year_start_0 (a : InvestmentAccount) (m : Market) (start_year : Z)
    (s : LoopState) :
  year_start g a m start_year 0 s <-> go_init g a m = Ok s.
Proof.
  unfold year_start. split.
  - intros (s0 & Hinit & Hloop). cbn in Hloop. now injection Hloop as <-.
  - intros Hinit. exists s. now split.
Qed.

Lemma year_start_S (a : InvestmentAccount) (m : Market) (start_year : Z)
    (k : nat) (s' : LoopState) :
  year_start g a m start_year (S k) s' <->
  exists s, year_start g a m start_year k s
            /\ year_body g (start_year + Z.of_nat k) s = Ok (None, s').
Proof.
  unfold year_start. rewrite seqZ_snoc. split.
  - intros (s0 & Hinit & Hloop). rewrite loop_app in Hloop.
    apply bind_Ok in Hloop as ([ret s] & Hpre & Hloop). cbn [fst snd] in Hloop.
    destruct (fst ret) eqn:Hret.
    + apply loop_unbroken in Hpre as Heq; [|exact Hret]. subst ret.
      exists s. split; [now exists s0|].
      cbn [loop] in Hloop. apply bind_Ok in Hloop as ([[r|] s1] & Hbody & Hloop);
        cbn [fst snd] in Hloop.
      * injection Hloop as -> <-.
        apply year_body_break_false in Hbody. discriminate.
      * now injection Hloop as <-.
    + injection Hloop as -> <-. discriminate.
  - intros (s & (s0 & Hinit & Hpre) & Hbody). exists s0. split; [exact Hinit|].
    rewrite loop_app, Hpre. cbn [bind fst snd loop]. now rewrite Hbody.
Qed.

Lemma year_start_functional (a : InvestmentAccount) (m : Market) (start_year : Z)
    (k : nat) (s1 s2 : LoopState) :
  year_start g a m start_year k s1 -> year_start g a m start_year k s2 -> s1 = s2.
Proof.
  intros (s0 & Hinit & Hloop) (s0' & Hinit' & Hloop'). congruence.
Qed.

Lemma go_init_Ok (a : InvestmentAccount) (m : Market) (s0 : LoopState) :
  go_init g a m = Ok s0 ->
  exists (p : Q) (a' : InvestmentAccount),
    current_price m = Ok p /\ ~ (p == 0)%Q
    /\ buy_stock m (Qfloor (cash_available a / p)) a = Ok a'
    /\ s0 = mkLoopState a' m (cash_available a * SPENDING_PERCENTAGE g)%Q
              [debug_header].
Proof.
  unfold go_init. intros Hinit.
  apply bind_Ok in Hinit as (p & Hp & Hinit).
  apply bind_Ok in Hinit as (q & Hq & Hinit).
  apply bind_Ok in Hinit as (a' & Hbuy & Hinit).
  apply truediv_Ok in Hq as [Hne ->]. injection Hinit as <-.
  exists p, a'. repeat split; assumption.
Qed.

(** While the loop runs, the clock is at the start of the year that the
    loop variable names (counted from the year the clock was in when [go]
    was called), the tables are those of the market passed in, and the
    table holds the header and one row per completed year. *)
Lemma year_start_clock (a : InvestmentAccount) (m : Market) (start_year : Z)
    (k : nat) (s : LoopState) :
  year_start g a m start_year k s ->
  _cur_year (market s) = _cur_year m + Z.of_nat k
  /\ (k <> 0%nat -> _at_start_of_year (market s) = true)
  /\ _snp_yearly (market s) = _snp_yearly m
  /\ _year_to_inflation (market s) = _year_to_inflation m
  /\ length (debug_info s) = S k.
Proof.
  revert s. induction k as [|k IH]; intros s Hs.
  - apply year_start_0, go_init_Ok in Hs as (p & a' & _ & _ & _ & ->).
    cbn. repeat split; [lia | congruence].
  - apply year_start_S in Hs as (s1 & Hs1 & Hbody).
    apply IH in Hs1 as (Hy & _ & Hsnp & Hinf & Hlen).
    apply year_body_continue in Hbody
      as (w & n & a1 & a2 & i & row & _ & _ & _ & _ & _ & -> & _).
    cbn. rewrite length_app, Hlen. cbn. repeat split; [lia | assumption.. | lia].
Qed.

(** C5: in fixed-real mode the withdrawal of a year is the value that
    [fixed_real_withdrawal] has when the year starts.  It starts at
    [starting cash * SPENDING_PERCENTAGE].  In a year that completes, that
    value is what [spend_cash] takes; the factor [1 + inflation] is read from
    the clock once it stands at the end of that same year, and the clock moves
    on to the next year afterwards: the next year starts with this year's
    value times [1 + inflation of this year]. *)
Theorem fixed_withdrawal_follows_inflation (a : InvestmentAccount) (m : Market)
    (start_year : Z) :
  SPEND_FIXED_REAL_AMOUNT g = true ->
  (forall (s : LoopState) (w : Q),
      this_year_withdrawal g s = Ok w -> w = fixed_real_withdrawal s)
  /\ (forall s0 : LoopState,
        year_start g a m start_year 0 s0 ->
        fixed_real_withdrawal s0 = (cash_available a * SPENDING_PERCENTAGE g)%Q)
  /\ (forall (k : nat) (s s' : LoopState),
        year_start g a m start_year k s ->
        year_start g a m start_year (S k) s' ->
        exists (n : Z) (a1 : InvestmentAccount) (inflation : Q),
          sell_stock (market s) n (account s) = Ok (true, a1)
          /\ spend_cash (fixed_real_withdrawal s) a1 = (true, account s')
          /\ _year_to_inflation m !! (_cur_year m + Z.of_nat k) = Some inflation
          /\ current_inflation (move_to_end_of_current_year (market s)) = Ok inflation
          /\ fixed_real_withdrawal s'
             = (fixed_real_withdrawal s * (1 + inflation))%Q
          /\ market s' = move_to_next_year (move_to_end_of_current_year (market s))).
Proof.
  intros Hfixed. split; [|split].
  - intros s w Hw. apply this_year_withdrawal_Ok in Hw as (net & _ & ->).
    now rewrite Hfixed.
  - intros s0 Hs0.
    now apply year_start_0, go_init_Ok in Hs0 as (p & a' & _ & _ & _ & ->).
  - intros k s s' Hs Hs'.
    apply year_start_S in Hs' as (s1 & Hs1 & Hbody).
    rewrite (year_start_functional _ _ _ _ _ _ Hs1 Hs) in Hbody. clear s1 Hs1.
    apply year_start_clock in Hs as (Hyear & _ & _ & Hinf & _).
    apply year_body_continue in Hbody
      as (w & n & a1 & a2 & i & row & Hw & _ & Hsell & Hspend & Hi & -> & _).
    apply this_year_withdrawal_Ok in Hw as (net & _ & ->).
    rewrite Hfixed in Hspend. exists n, a1, i. cbn.
    repeat split; try assumption.
    unfold current_inflation, getitem in Hi. cbn in Hi.
    rewrite Hinf, Hyear in Hi. now destruct (_ !! _); [injection Hi as -> | ].
Qed.

(** ** Running short *)

(** C6: when, in a year [Y] that the run reaches, [sell_stock] returns
    [False], the account is as it was before the call and [go] returns
    [(False, colored("ran short in Y", "red"))] as an ordinary value.  The run
    ends in the state in which year [Y] started: the clock is still in [Y]
    and the table holds the header and one row per year before [Y].  The
    driver, given this result for a start year, puts the reason into a row of
    the display and goes on with the remaining start years. *)
Theorem shortfall_ends_the_run (a : InvestmentAccount) (m : Market)
    (start_year num_years : Z) (k : nat) (s : LoopState) (w : Q) (n : Z)
    (a1 : InvestmentAccount) :
  Z.of_nat k < num_years ->
  year_start g a m start_year k s ->
  this_year_withdrawal g s = Ok w ->
  num_shares_to_sell w s = Ok n ->
  sell_stock (market s) n (account s) = Ok (false, a1) ->
  let reason := colored ("ran short in " +:+ pretty (start_year + Z.of_nat k)) "red" in
  a1 = account s
  /\ go g a m start_year num_years = Ok ((false, reason), s)
  /\ _cur_year (market s) = _cur_year m + Z.of_nat k
  /\ length (debug_info s) = S k
  /\ (a = InvestmentAccount_init STARTING_CASH ->
      m = Market_init (snp_yearly g) start_year (year_to_inflation g) ->
      let row := [ pretty start_year +:+ " - " +:+ pretty (start_year + num_years);
                   reason; ""; ""; ""; "" ] in
      run_one g num_years start_year = Ok row
      /\ forall rest : list Z,
           run_strategy g (start_year :: rest) num_years
           = run_rows g num_years rest [display_header; row]).
Proof.
  intros Hk Hs Hw Hn Hsell reason.
  apply sell_stock_false in Hsell as Ha1. destruct Ha1 as [Ha1 _]. subst a1.
  assert (Hbody : year_body g (start_year + Z.of_nat k) s
                  = Ok (Some (false, reason), s)).
  { unfold year_body.
    apply this_year_withdrawal_Ok in Hw as Hnet. destruct Hnet as (net & Hnet & _).
    rewrite Hnet, Hw. cbn [bind]. rewrite Hn. cbn [bind]. rewrite Hsell.
    cbn [bind fst snd negb]. now destruct s. }
  assert (Hgo : go g a m start_year num_years = Ok ((false, reason), s)).
  { destruct Hs as (s0 & Hinit & Hloop). unfold go. rewrite Hinit. cbn [bind].
    replace num_years with (Z.of_nat k + (num_years - Z.of_nat k)) by lia.
    rewrite seqZ_app, loop_app, Hloop by lia. cbn [bind fst snd].
    rewrite seqZ_cons by lia. cbn [loop]. now rewrite Hbody. }
  pose proof (year_start_clock _ _ _ _ _ Hs) as (Hyear & _ & _ & _ & Hlen).
  split; [reflexivity|]. split; [exact Hgo|]. split; [exact Hyear|].
  split; [exact Hlen|]. intros Ha Hm row. subst a m.
  assert (Hone : run_one g num_years start_year = Ok row).
  { unfold run_one. now rewrite Hgo. }
  split; [exact Hone|]. intros rest. unfold run_strategy. cbn [run_rows].
  now rewrite Hone.
Qed.

(** ** The account stays non-negative *)

Section Sound.
Variables (a : InvestmentAccount) (m : Market) (start_year num_years : Z).
Hypothesis spending_non_negative : (0 <= SPENDING_PERCENTAGE g)%Q.
Hypothesis prices_positive :
  forall (y : Z) (r : SnpYear),
    _snp_yearly m !! y = Some r -> (0 < open r)%Q /\ (0 < close r)%Q.
Hypothesis inflation_above_minus_one :
  forall (y : Z) (r : Q), _year_to_inflation m !! y = Some r -> (-1 <= r)%Q.
Hypothesis starting_cash_non_negative : (0 <= _cash a)%Q.
Hypothesis starting_without_shares : _num_shares a = 0.

(** Projections of records that are written out. *)
Ltac fields :=
  cbn [account market fixed_real_withdrawal debug_info _cash _num_shares
       _cur_year _at_start_of_year _snp_yearly _year_to_inflation
       move_to_next_year move_to_end_of_current_year fst snd] in *.

Lemma current_price_positive (m' : Market) (p : Q) :
  _snp_yearly m' = _snp_yearly m -> current_price m' = Ok p -> (0 < p)%Q.
Proof.
  unfold current_price, getitem. intros ->.
  destruct (_snp_yearly m !! _cur_year m') as [r|] eqn:Hr;
    [|destruct (_at_start_of_year m'); discriminate].
  destruct (prices_positive _ _ Hr).
  destruct (_at_start_of_year m'); cbn; now intros [= <-].
Qed.

Lemma go_init_sound (s0 : LoopState) : go_init g a m = Ok s0 -> sound m s0.
Proof.
  intros Hinit. apply go_init_Ok in Hinit as (p & a' & Hp & _ & Hbuy & ->).
  assert (Hpos : (0 < p)%Q) by now apply (current_price_positive m).
  unfold buy_stock in Hbuy. rewrite Hp in Hbuy. cbn [bind] in Hbuy.
  destruct (Qle_bool _ _) eqn:Hle; [|discriminate]. apply Ok_inj in Hbuy as <-.
  apply Qle_bool_iff in Hle. unfold sound. fields.
  pose proof (floor_nonneg (_cash a) p Hpos starting_cash_non_negative).
  unfold cash_available in *. rewrite starting_without_shares.
  repeat split; [lra | lia | nra].
Qed.

Lemma year_operations_sound (s : LoopState) (w : Q) (n : Z) (a1 : InvestmentAccount) :
  sound m s ->
  this_year_withdrawal g s = Ok w ->
  num_shares_to_sell w s = Ok n ->
  sell_stock (market s) n (account s) = Ok (true, a1) ->
  (0 <= w)%Q /\ (w <= _cash a1)%Q /\ 0 <= _num_shares a1
  /\ forall a2 : InvestmentAccount,
       spend_cash w a1 = (true, a2) ->
       (0 <= _cash a2)%Q /\ _num_shares a2 = _num_shares a1.
Proof.
  intros (Hcash & Hshares & Hfrw & Hsnp & _) Hw Hn Hsell.
  apply num_shares_to_sell_Ok in Hn as (p & Hp & _ & ->).
  assert (Hpos : (0 < p)%Q) by now apply (current_price_positive (market s)).
  assert (Hw0 : (0 <= w)%Q).
  { apply this_year_withdrawal_Ok in Hw as (net & Hnet & ->).
    rewrite (net_worth_price _ _ p Hp) in Hnet. apply Ok_inj in Hnet as <-.
    destruct (SPEND_FIXED_REAL_AMOUNT g); [exact Hfrw|].
    assert (Hs : (0 <= inject_Z (_num_shares (account s)))%Q).
    { change 0%Q with (inject_Z 0). now rewrite <- Zle_Qle. }
    apply Qmult_le_0_compat; [|exact spending_non_negative].
    assert (0 <= inject_Z (_num_shares (account s)) * p)%Q by nra. lra. }
  apply (sell_stock_true _ _ _ _ p Hp) in Hsell as [Hge ->]. fields.
  pose proof (ceiling_covers (w - cash_available (account s)) p Hpos) as Hc.
  unfold cash_available in *.
  split; [exact Hw0|]. split; [lra|]. split; [lia|].
  intros a2 Hspend. unfold spend_cash in Hspend.
  destruct (Qltb _ _) eqn:Hlt; [discriminate|].
  apply pair_equal_spec in Hspend as [_ <-]. apply Qltb_false in Hlt. fields. split; [lra | reflexivity].
Qed.

Lemma year_start_sound (k : nat) (s : LoopState) :
  year_start g a m start_year k s -> sound m s.
Proof.
  revert s. induction k as [|k IH]; intros s Hs.
  - now apply year_start_0, go_init_sound in Hs.
  - apply year_start_S in Hs as (s1 & Hs1 & Hbody). apply IH in Hs1 as Hsound.
    apply year_body_continue in Hbody
      as (w & n & a1 & a2 & i & row & Hw & Hn & Hsell & Hspend & Hi & -> & _).
    destruct (year_operations_sound s1 w n a1 Hsound Hw Hn Hsell)
      as (Hw0 & _ & Hshares1 & Hspent).
    destruct (Hspent a2 Hspend) as [Hcash2 Hshares2].
    destruct Hsound as (_ & _ & Hfrw & Hsnp & Hinf).
    unfold sound. fields. rewrite Hshares2.
    repeat split; [assumption.. | | assumption | assumption].
    unfold current_inflation, getitem in Hi. fields. rewrite Hinf in Hi.
    destruct (_year_to_inflation m !! _cur_year (market s1)) as [r|] eqn:Hr;
      [|discriminate].
    injection Hi as <-. apply inflation_above_minus_one in Hr. nra.
Qed.

(** With positive prices the loop breaks for one reason only. *)
Lemma loop_breaks_only_on_shortfall (years : list Z) (s s' : LoopState)
    (ret : bool * string) :
  _snp_yearly (market s) = _snp_yearly m ->
  loop g years (true, "") s = Ok (ret, s') ->
  fst ret = false ->
  exists y : Z,
    y ∈ years /\ ret = (false, colored ("ran short in " +:+ pretty y) "red").
Proof.
  revert s. induction years as [|y rest IH]; intros s Hsnp Hloop Hret.
  - apply Ok_inj, pair_equal_spec in Hloop as [<- _]. discriminate.
  - cbn [loop] in Hloop.
    apply bind_Ok in Hloop as ([[r|] s1] & Hbody & Hloop); cbn [fst snd] in Hloop.
    + apply Ok_inj, pair_equal_spec in Hloop as [-> ->].
      apply year_body_break in Hbody
        as (w & n & _ & Hn & [(_ & -> & _) | (a1 & Hsell & Hspend & _)]).
      * exists y. split; [apply list_elem_of_here | reflexivity].
      * apply num_shares_to_sell_Ok in Hn as (p & Hp & _ & ->).
        assert (Hpos : (0 < p)%Q)
          by now apply (current_price_positive (market s)).
        pose proof (sale_covers_withdrawal s p w a1 Hp Hpos Hsell) as Hcover.
        rewrite (spend_cash_covered w a1 Hcover) in Hspend. discriminate.
    + apply year_body_continue in Hbody
        as (w & n & a1 & a2 & i & row & _ & _ & _ & _ & _ & -> & _).
      apply IH in Hloop as (y' & Hy' & Heq); [| exact Hsnp | exact Hret].
      subst ret.
      exists y'. split; [now apply list_elem_of_further | reflexivity].
Qed.

(** A run over positive prices that returns [False] ran short of shares in
    one of its years: the "failed to spend cash?" result does not occur. *)
Lemma go_fails_only_on_shortfall (ret : bool * string) (s : LoopState) :
  go g a m start_year num_years = Ok (ret, s) ->
  fst ret = false ->
  exists y : Z,
    start_year <= y < start_year + num_years
    /\ ret = (false, colored ("ran short in " +:+ pretty y) "red").
Proof.
  unfold go. intros Hgo Hret. apply bind_Ok in Hgo as (s0 & Hinit & Hloop).
  apply go_init_Ok in Hinit as (p & a' & _ & _ & _ & ->).
  apply loop_breaks_only_on_shortfall in Hloop as (y & Hy & ->);
    [| reflexivity | exact Hret].
  exists y. split; [now apply elem_of_seqZ in Hy | reflexivity].
Qed.

(** In exact arithmetic: in a run with a spending percentage that is not
    negative, positive prices and no inflation rate below minus one, started
    with non-negative cash and no shares, the account has [cash >= 0] and
    [shares >= 0] after the initial [buy_stock] and after every [sell_stock]
    and [spend_cash] of the loop that succeeds.  An operation that the
    account cannot cover is turned down as a whole: [sell_stock] and
    [spend_cash] return [False] and leave the account as it was,
    [buy_stock] raises [AssertionError]; no amount is cut down to fit. *)
Theorem account_stays_non_negative :
  (forall acc : InvestmentAccount,
      after_operation g a m start_year num_years acc ->
      (0 <= _cash acc)%Q /\ 0 <= _num_shares acc)
  /\ (forall (m' : Market) (acc : InvestmentAccount) (n : Z) (p : Q),
        current_price m' = Ok p ->
        (_num_shares acc < n -> sell_stock m' n acc = Ok (false, acc))
        /\ ((_cash acc < p * inject_Z n)%Q ->
            buy_stock m' n acc = Raise AssertionError))
  /\ (forall (acc : InvestmentAccount) (amount : Q),
        (_cash acc < amount)%Q -> spend_cash amount acc = (false, acc)).
Proof.
  split; [|split].
  - intros acc Hacc.
    destruct Hacc as [s0 Hinit | k s w n a1 _ Hs Hw Hn Hsell
                     | k s w n a1 a2 _ Hs Hw Hn Hsell Hspend].
    + apply go_init_sound in Hinit as (Hcash & Hshares & _). now split.
    + apply year_start_sound in Hs.
      destruct (year_operations_sound s w n a1 Hs Hw Hn Hsell)
        as (Hw0 & Hcover & Hshares & _).
      split; [lra | exact Hshares].
    + apply year_start_sound in Hs.
      destruct (year_operations_sound s w n a1 Hs Hw Hn Hsell)
        as (_ & _ & Hshares & Hspent).
      destruct (Hspent a2 Hspend) as [Hcash2 Hshares2].
      split; [exact Hcash2 | now rewrite Hshares2].
  - intros m' acc n p Hp. split.
    + intros Hlt. rewrite (sell_stock_cases m' acc n p Hp).
      apply Z.ltb_lt in Hlt. now rewrite Hlt.
    + intros Hlt. unfold buy_stock. rewrite Hp. cbn [bind].
      destruct (Qle_bool _ _) eqn:Hle; [|reflexivity].
      apply Qle_bool_iff in Hle. lra.
  - intros acc amount Hlt. unfold spend_cash.
    apply Qltb_true in Hlt. now rewrite Hlt.
Qed.

End Sound.

End Properties.

(** ** The theorems of the strategy on concrete runs *)

Lemma initial_buy_is_affordable_witness :
  (100 * inject_Z (Qfloor (cash_available (InvestmentAccount_init STARTING_CASH) / 100))
   <= _cash (InvestmentAccount_init STARTING_CASH))%Q
  /\ @go plain_text (cli 4 true snp_one_year five_percent)
       (InvestmentAccount_init STARTING_CASH) market_2000 2000 1
     <> Raise AssertionError.
Proof.
  assert (Hcash : (0 <= _cash (InvestmentAccount_init STARTING_CASH))%Q)
    by (vm_compute; discriminate).
  destruct (@initial_buy_is_affordable plain_text
              (cli 4 true snp_one_year five_percent)
              (InvestmentAccount_init STARTING_CASH) market_2000 100
              eq_refl eq_refl Hcash) as (_ & Hle & _ & Hgo).
  exact (conj Hle (Hgo 2000 1)).
Defined.

Lemma spend_after_sale_succeeds_witness :
  spend_cash 40000 (mkAccount (0 + 100 * inject_Z 400) (10000 - 400))
  = (true, mkAccount (0 + 100 * inject_Z 400 - 40000) (10000 - 400)).
Proof.
  pose proof (@spend_after_sale_succeeds plain_text
                (cli 4 true snp_one_year five_percent) 2000
                (mkLoopState (mkAccount 0 10000) market_2000 40000 [debug_header])
                100 40000
                (mkAccount (0 + 100 * inject_Z 400) (10000 - 400))
                eq_refl eq_refl eq_refl eq_refl) as (_ & _ & Hspend & _).
  exact Hspend.
Defined.



(** The scenario of one year at four percent: 10000 shares are bought at the
    opening price of 100, the 40000 of the first withdrawal are raised by
    selling 400 shares at that same opening price, and the target for the
    next year is 42000. *)
Example go_one_year_at_four_percent :
  exists s : LoopState,
    @go plain_text spend_four fresh_account market_2000 2000 1 = Ok ((true, ""), s)
    /\ _num_shares (account s) = 9600
    /\ (_cash (account s) == 0)%Q
    /\ (fixed_real_withdrawal s == 42000)%Q
    /\ _cur_year (market s) = 2001
    /\ nth 1 (debug_info s) [] !! 4%nat = Some (CInt 400).
Proof.
  eexists. split; [vm_compute; reflexivity|]. simpl.
  repeat (split; [reflexivity|]). reflexivity.
Qed.

(** Such a state is reached by [go] itself: started with 1050 in cash and a
    withdrawal rate of one percent, it buys ten shares at 100, and in the
    second year, at a price of 10, its sale of [-2] shares raises the
    holding to twelve. *)
Example go_buys_shares_with_left_over_cash :
  exists s : LoopState,
    @go plain_text (cli 1 true snp_falling no_inflation)
      (InvestmentAccount_init 1050) (Market_init snp_falling 2000 no_inflation)
      2000 2 = Ok ((true, ""), s)
    /\ _num_shares (account s) = 12
    /\ (_cash (account s) == 9)%Q
    /\ nth 2 (debug_info s) [] !! 4%nat = Some (CInt (-2)).
Proof.
  eexists. split; [vm_compute; reflexivity|]. simpl.
  split; [reflexivity|]. split; reflexivity.
Qed.

Lemma snp_one_year_positive (y : Z) (r : SnpYear) :
  snp_one_year !! y = Some r -> (0 < open r)%Q /\ (0 < close r)%Q.
Proof.
  unfold snp_one_year. intros Hr. apply lookup_singleton_Some in Hr as [_ <-]. split; reflexivity.
Qed.

Lemma five_percent_above_minus_one (y : Z) (r : Q) :
  five_percent !! y = Some r -> (-1 <= r)%Q.
Proof.
  unfold five_percent. intros Hr. apply lookup_insert_Some in Hr as [[_ <-] | [_ Hr]];
    [discriminate|].
  apply lookup_singleton_Some in Hr as [_ <-]. discriminate.
Qed.

Lemma five_percent_rate (y : Z) :
  2000 <= y < 2000 + 2 -> year_to_inflation spend_four !! y = Some (5 # 100)%Q.
Proof.
  intros Hy. assert (y = 2000 \/ y = 2001) as [-> | ->] by lia; reflexivity.
Qed.

Lemma nominal_to_real_divides_by_product_witness :
  exists real : Q,
    nominal_to_real spend_four 11025 2000 2 = Ok real
    /\ (real == 11025 / compounded_factor (fun _ => 5 # 100) 2000 2)%Q.
Proof.
  destruct (nominal_to_real_divides_by_product spend_four 11025 2000 2
              (fun _ => (5 # 100)%Q) five_percent_rate) as (_ & Hreal & _).
  apply Hreal. vm_compute. discriminate.
Defined.

Lemma fixed_withdrawal_follows_inflation_witness :
  exists s s' : LoopState,
    @year_start plain_text spend_four fresh_account market_2000 2000 0 s
    /\ @year_start plain_text spend_four fresh_account market_2000 2000 1 s'
    /\ (fixed_real_withdrawal s == 40000)%Q
    /\ (fixed_real_withdrawal s' == 42000)%Q
    /\ exists (n : Z) (a1 : InvestmentAccount),
         sell_stock (market s) n (account s) = Ok (true, a1)
         /\ spend_cash (fixed_real_withdrawal s) a1 = (true, account s')
         /\ fixed_real_withdrawal s'
            = (fixed_real_withdrawal s * (1 + (5 # 100)))%Q.
Proof.
  assert (exists s, @year_start plain_text spend_four fresh_account market_2000 2000 0 s
                    /\ (fixed_real_withdrawal s == 40000)%Q) as (s & Hs & Hw).
  { eexists. split; [eexists; split; [vm_compute; reflexivity | reflexivity]|].
    reflexivity. }
  assert (exists s', @year_start plain_text spend_four fresh_account market_2000 2000 1 s'
                     /\ (fixed_real_withdrawal s' == 42000)%Q) as (s' & Hs' & Hw').
  { eexists. split; [eexists; split; vm_compute; reflexivity|]. reflexivity. }
  exists s, s'. repeat (split; [assumption|]).
  destruct (@fixed_withdrawal_follows_inflation plain_text spend_four
              fresh_account market_2000 2000 eq_refl) as (_ & _ & Hstep).
  destruct (Hstep 0%nat s s' Hs Hs')
    as (n & a1 & i & Hsell & Hspend & Hi & _ & Hnext & _).
  exists n, a1. repeat (split; [assumption|]).
  rewrite Hnext. vm_compute in Hi. now apply Some_inj in Hi as <-.
Defined.

Lemma shortfall_ends_the_run_witness :
  @run_strategy plain_text spend_ninety [2000] 2
  = Ok [ display_header; [ "2000 - 2002"; "ran short in 2001"; ""; ""; ""; "" ] ].
Proof.
  edestruct (@shortfall_ends_the_run plain_text spend_ninety fresh_account
               (Market_init snp_falling 2000 no_inflation) 2000 2 1%nat)
    as (_ & _ & _ & _ & Hrun).
  - reflexivity.
  - eexists. split; vm_compute; reflexivity.
  - vm_compute. reflexivity.
  - vm_compute. reflexivity.
  - vm_compute. reflexivity.
  - destruct (Hrun eq_refl eq_refl) as [_ Hrows]. exact (Hrows []).
Defined.

Lemma account_stays_non_negative_witness :
  exists acc : InvestmentAccount,
    @after_operation plain_text spend_four fresh_account market_2000 2000 1 acc
    /\ _num_shares acc = 9600
    /\ (0 <= _cash acc)%Q /\ 0 <= _num_shares acc.
Proof.
  assert (exists acc,
             @after_operation plain_text spend_four fresh_account market_2000
               2000 1 acc
             /\ _num_shares acc = 9600) as (acc & Hacc & Hshares).
  { eexists. split; [eapply (after_sell_stock _ _ _ _ _ 0%nat)|].
    - reflexivity.
    - eexists. split; [vm_compute; reflexivity | reflexivity].
    - vm_compute. reflexivity.
    - vm_compute. reflexivity.
    - vm_compute. reflexivity.
    - reflexivity. }
  exists acc. split; [exact Hacc|]. split; [exact Hshares|].
  apply (@account_stays_non_negative plain_text spend_four fresh_account
           market_2000 2000 1); try assumption.
  - vm_compute. discriminate.
  - exact snp_one_year_positive.
  - exact five_percent_above_minus_one.
  - vm_compute. discriminate.
  - reflexivity.
Defined.

(** No sign is checked on the way in: the command line takes a spending
    percentage of -4.  The run then invests 1000000 in 10000 shares at 100,
    wants to withdraw -40000, computes a sale of ceil(-40000 / 100) = -400
    shares, and [sell_stock (-400)] returns [True] and leaves the account
    with 10400 shares and -40000 in cash. *)
Lemma negative_spending_overdraws_the_account :
  exists acc : InvestmentAccount,
    @after_operation plain_text spend_minus_four fresh_account market_2000
      2000 1 acc
    /\ (_cash acc == -40000)%Q /\ _num_shares acc = 10400
    /\ ~ ((0 <= _cash acc)%Q /\ 0 <= _num_shares acc).
Proof.
  eexists. split.
  - eapply (after_sell_stock _ _ _ _ _ 0%nat).
    + reflexivity.
    + eexists. split; [vm_compute; reflexivity | reflexivity].
    + vm_compute. reflexivity.
    + vm_compute. reflexivity.
    + vm_compute. reflexivity.
  - split; [reflexivity|]. split; [reflexivity|].
    intros [Hcash _]. now apply Hcash.
Qed.

(** * Further properties of the code *)

(** ** The account and the clock *)

Lemma current_price_missing (m : Market) :
  _snp_yearly m !! _cur_year m = None ->
  current_price m = Raise (KeyError (_cur_year m)).
Proof.
  intros Hy. unfold current_price, getitem. rewrite Hy.
  now destruct (_at_start_of_year m).
Qed.

(** X2: when the clock stands in a year without a price record, everything
    that prices at the clock raises [KeyError] for that year: [net_worth],
    [sell_stock], [buy_stock] (whatever the count: the lookup comes before
    the [assert]), and [go], which gets no further than its first price
    lookup, for every start year and number of years. *)
Theorem missing_price_raises_KeyError (m : Market) (a : InvestmentAccount) :
  _snp_yearly m !! _cur_year m = None ->
  net_worth m a = Raise (KeyError (_cur_year m))
  /\ (forall n : Z, sell_stock m n a = Raise (KeyError (_cur_year m)))
  /\ (forall n : Z, buy_stock m n a = Raise (KeyError (_cur_year m)))
  /\ (forall `{Externals} (g : Globals) (start_year num_years : Z),
        go g a m start_year num_years = Raise (KeyError (_cur_year m))).
Proof.
  intros Hy. pose proof (current_price_missing m Hy) as Hp.
  split; [|split; [|split]].
  - unfold net_worth. now rewrite Hp.
  - intros n. unfold sell_stock. now rewrite Hp.
  - intros n. unfold buy_stock. now rewrite Hp.
  - intros E g start_year num_years. unfold go, go_init. now rewrite Hp.
Qed.

Lemma missing_price_raises_KeyError_witness :
  buy_stock (move_to_next_year market_2000) 1000000 (mkAccount 0 0)
  = Raise (KeyError 2001).
Proof.
  destruct (missing_price_raises_KeyError (move_to_next_year market_2000)
              (mkAccount 0 0) eq_refl) as (_ & _ & Hbuy & _).
  exact (Hbuy 1000000).
Defined.

(** X3: [current_year_growth] is a property of the year, not of the phase:
    when the year's open price is not zero it is [(close - open) / open],
    the relative change from the price that [current_price] gives at the
    start of the year to the one it gives at the end, and it is the same
    before and after [move_to_end_of_current_year]; with an open price of
    zero it raises [ZeroDivisionError], and without a record for the year
    [KeyError]. *)
Theorem current_year_growth_of_year (m : Market) :
  current_year_growth (move_to_end_of_current_year m) = current_year_growth m
  /\ (forall y : SnpYear,
        _snp_yearly m !! _cur_year m = Some y ->
        (~ (open y == 0)%Q ->
         current_year_growth m = Ok ((close y - open y) / open y)%Q
         /\ (_at_start_of_year m = true ->
             exists p0 p1 : Q,
               current_price m = Ok p0
               /\ current_price (move_to_end_of_current_year m) = Ok p1
               /\ current_year_growth m = Ok ((p1 - p0) / p0)%Q))
        /\ ((open y == 0)%Q -> current_year_growth m = Raise ZeroDivisionError))
  /\ (_snp_yearly m !! _cur_year m = None ->
      current_year_growth m = Raise (KeyError (_cur_year m))).
Proof.
  split; [reflexivity|]. split.
  - intros y Hy. unfold current_year_growth, getitem, truediv. rewrite Hy.
    cbn [bind]. split.
    + intros Hne. destruct (Qeq_bool (open y) 0) eqn:E.
      { now apply Qeq_bool_eq in E. }
      split; [reflexivity|]. intros Hstart. exists (open y), (close y).
      rewrite (current_price_lookup m y Hy), Hstart.
      now rewrite (current_price_lookup (move_to_end_of_current_year m) y Hy).
    + intros Hz. apply Qeq_eq_bool in Hz. now rewrite Hz.
  - intros Hy. unfold current_year_growth, getitem. now rewrite Hy.
Qed.

Lemma current_year_growth_of_year_witness :
  current_year_growth market_2000 = Ok ((110 - 100) / 100)%Q.
Proof.
  destruct (current_year_growth_of_year market_2000) as (_ & Hgrowth & _).
  destruct (Hgrowth (mkSnpYear 2000 100 110) eq_refl) as [Hok _].
  apply Hok. vm_compute. discriminate.
Defined.

Section Coverage.
Context `{Externals}.
Variable g : Globals.

(** ** A whole run *)

Lemma go_True_year_start (a : InvestmentAccount) (m : Market)
    (start_year num_years : Z) (text : string) (s : LoopState) :
  go g a m start_year num_years = Ok ((true, text), s) ->
  text = "" /\ year_start g a m start_year (Z.to_nat num_years) s.
Proof.
  unfold go. intros Hgo. apply bind_Ok in Hgo as (s0 & Hinit & Hloop).
  apply loop_unbroken in Hloop as Hret; [|reflexivity].
  apply pair_equal_spec in Hret as [_ ->]. split; [reflexivity|].
  exists s0. split; [exact Hinit|].
  replace (seqZ start_year (Z.of_nat (Z.to_nat num_years)))
    with (seqZ start_year num_years); [exact Hloop|].
  unfold seqZ. now rewrite Nat2Z.id.
Qed.

Lemma year_start_earlier (a : InvestmentAccount) (m : Market) (start_year : Z)
    (j k : nat) (s' : LoopState) :
  year_start g a m start_year j s' -> (k <= j)%nat ->
  exists s, year_start g a m start_year k s.
Proof.
  revert s'. induction j as [|j IH]; intros s' Hs' Hk.
  - assert (k = 0%nat) as -> by lia. now exists s'.
  - destruct (Nat.eq_dec k (S j)) as [->|Hne]; [now exists s'|].
    apply year_start_S in Hs' as (s & Hs & _). apply (IH s Hs). lia.
Qed.

(** The rows of the table are those of the years gone through, in order. *)
Lemma year_start_rows (a : InvestmentAccount) (m : Market) (start_year : Z)
    (k : nat) (s : LoopState) :
  year_start g a m start_year k s ->
  head <$> debug_info s
  = Some (CStr "year")
    :: ((fun y => Some (CInt y)) <$> seqZ start_year (Z.of_nat k)).
Proof.
  revert s. induction k as [|k IH]; intros s Hs.
  - now apply year_start_0, go_init_Ok in Hs as (p & a' & _ & _ & _ & ->).
  - apply year_start_S in Hs as (s1 & Hs1 & Hbody). apply IH in Hs1.
    apply year_body_continue in Hbody
      as (w & n & a1 & a2 & i & row & _ & _ & _ & _ & _ & -> & Hrow).
    cbn [debug_info]. rewrite fmap_app, Hs1, seqZ_snoc, fmap_app.
    cbn [fmap list_fmap]. now rewrite Hrow.
Qed.

(** X6: a call of [go] that returns [True] returns it with the empty text,
    has advanced the clock by [num_years] years (by none when [num_years]
    is not positive) and left it at the start of a year, and has written the
    header row and then one row per year, whose first cells are the years
    [start_year], [start_year + 1], ... in order; the tables of the market
    are as they were. *)
Theorem go_True_final_state (a : InvestmentAccount) (m : Market)
    (start_year num_years : Z) (text : string) (s : LoopState) :
  go g a m start_year num_years = Ok ((true, text), s) ->
  text = ""
  /\ _cur_year (market s) = _cur_year m + Z.max 0 num_years
  /\ (0 < num_years -> _at_start_of_year (market s) = true)
  /\ _snp_yearly (market s) = _snp_yearly m
  /\ _year_to_inflation (market s) = _year_to_inflation m
  /\ head <$> debug_info s
     = Some (CStr "year")
       :: ((fun y => Some (CInt y)) <$> seqZ start_year num_years).
Proof.
  intros Hgo. apply go_True_year_start in Hgo as [-> Hs].
  pose proof (year_start_clock _ _ _ _ _ _ Hs) as (Hyear & Hphase & Hsnp & Hinf & _).
  pose proof (year_start_rows _ _ _ _ _ Hs) as Hrows.
  split; [reflexivity|]. split; [lia|]. split; [intros; apply Hphase; lia|].
  split; [exact Hsnp|]. split; [exact Hinf|]. rewrite Hrows.
  unfold seqZ. now rewrite Nat2Z.id.
Qed.

(** ** Inflation over several years *)

Lemma compound_app (l1 l2 : list Z) (percent : Q) :
  compound g (l1 ++ l2) percent
  = (let* f := compound g l1 percent in compound g l2 f).
Proof.
  revert percent. induction l1 as [|y l1 IH]; intros percent; [reflexivity|].
  cbn [app compound]. destruct (getitem (year_to_inflation g) y) as [r|e];
    cbn [bind]; [apply IH | reflexivity].
Qed.

Lemma compound_Ok (l : list Z) (percent f : Q) :
  compound g l percent = Ok f <->
  (forall y, y ∈ l -> is_Some (year_to_inflation g !! y))
  /\ f = fold_left Qmult (map (fun y => (1 + rate_of g y)%Q) l) percent.
Proof.
  revert percent f. induction l as [|y l IH]; intros percent f;
    cbn [compound map fold_left].
  - split.
    + intros Hf. apply Ok_inj in Hf as <-. split; [|reflexivity].
      intros y Hy. inversion Hy.
    + now intros [_ ->].
  - unfold getitem.
    destruct (year_to_inflation g !! y) as [r|] eqn:Hr; cbn [bind].
    + assert (Hrate : rate_of g y = r) by (unfold rate_of; now rewrite Hr).
      rewrite Hrate, IH. split; intros [Hall ->]; (split; [|reflexivity]).
      * intros z Hz. apply elem_of_cons in Hz as [->|Hz];
          [now rewrite Hr | now apply Hall].
      * intros z Hz. apply Hall. now apply list_elem_of_further.
    + split; [discriminate|]. intros [Hall _].
      destruct (Hall y (list_elem_of_here _ _)) as [r Hr']. congruence.
Qed.

Lemma get_inflation_percentage_S (start_year : Z) (k : nat) (f i : Q) :
  get_inflation_percentage g start_year (Z.of_nat k) = Ok f ->
  year_to_inflation g !! (start_year + Z.of_nat k) = Some i ->
  get_inflation_percentage g start_year (Z.of_nat (S k)) = Ok (f * (1 + i))%Q.
Proof.
  unfold get_inflation_percentage. intros Hf Hi.
  rewrite seqZ_snoc, compound_app, Hf. cbn [bind compound].
  unfold getitem. now rewrite Hi.
Qed.

(** The inflation of the years gone through has been read from the table, and
    the withdrawal target has been multiplied by it. *)
Lemma year_start_compounded (a : InvestmentAccount) (m : Market)
    (start_year : Z) (k : nat) (s : LoopState) :
  _year_to_inflation m = year_to_inflation g -> _cur_year m = start_year ->
  year_start g a m start_year k s ->
  exists f : Q,
    get_inflation_percentage g start_year (Z.of_nat k) = Ok f
    /\ (fixed_real_withdrawal s
        == cash_available a * SPENDING_PERCENTAGE g * f)%Q.
Proof.
  intros Htable Hclock. revert s. induction k as [|k IH]; intros s Hs.
  - apply year_start_0, go_init_Ok in Hs as (p & a' & _ & _ & _ & ->).
    exists 1%Q. split; [reflexivity|]. cbn [fixed_real_withdrawal]. ring.
  - apply year_start_S in Hs as (s1 & Hs1 & Hbody).
    destruct (IH s1 Hs1) as (f & Hf & Hfrw).
    apply year_start_clock in Hs1 as (Hyear & _ & _ & Hinf & _).
    apply year_body_continue in Hbody
      as (w & n & a1 & a2 & i & row & _ & _ & _ & _ & Hi & -> & _).
    unfold current_inflation, getitem in Hi.
    cbn [move_to_end_of_current_year _year_to_inflation _cur_year] in Hi.
    rewrite Hinf, Hyear, Htable, Hclock in Hi.
    destruct (year_to_inflation g !! (start_year + Z.of_nat k)) as [r|] eqn:Hr;
      [|discriminate].
    apply Ok_inj in Hi as <-. exists (f * (1 + r))%Q.
    split; [now apply get_inflation_percentage_S|].
    cbn [fixed_real_withdrawal]. rewrite Hfrw. ring.
Qed.

(** X8: the driver prices the account after a run that returned [True], and
    the clock then stands in the year after the last simulated one.  So when
    the price table has no record for [year + num_years], [run_strategy]
    raises [KeyError(year + num_years)] although the strategy itself
    succeeded. *)
Theorem successful_run_needs_the_year_after (year num_years : Z) (text : string)
    (s : LoopState) :
  0 <= num_years ->
  go g (InvestmentAccount_init STARTING_CASH)
     (Market_init (snp_yearly g) year (year_to_inflation g)) year num_years
  = Ok ((true, text), s) ->
  snp_yearly g !! (year + num_years) = None ->
  run_one g num_years year = Raise (KeyError (year + num_years))
  /\ forall rest : list Z,
       run_strategy g (year :: rest) num_years
       = Raise (KeyError (year + num_years)).
Proof.
  intros Hn Hgo Hmissing.
  assert (Hone : run_one g num_years year = Raise (KeyError (year + num_years))).
  { unfold run_one. rewrite Hgo. cbn [bind fst snd].
    apply go_True_year_start in Hgo as [_ Hs].
    destruct (year_start_compounded (InvestmentAccount_init STARTING_CASH)
                (Market_init (snp_yearly g) year (year_to_inflation g))
                year _ s eq_refl eq_refl Hs) as (f & Hf & _).
    rewrite Z2Nat.id in Hf by exact Hn. rewrite Hf. cbn [bind].
    apply year_start_clock in Hs as (Hyear & _ & Hsnp & _).
    cbn [Market_init _cur_year _snp_yearly] in Hyear, Hsnp.
    rewrite Z2Nat.id in Hyear by exact Hn.
    unfold net_worth. rewrite current_price_missing.
    - now rewrite Hyear.
    - now rewrite Hsnp, Hyear. }
  split; [exact Hone|]. intros rest. unfold run_strategy. cbn [run_rows].
  now rewrite Hone.
Qed.

(** X9: missing data stops a run.  When the run reaches a year for which the
    price table has no record, [go] raises [KeyError] for that year; and a
    run never completes a year for which the inflation table has no entry,
    so it cannot return [True] when such a year lies within its horizon. *)
Theorem missing_data_stops_the_run (a : InvestmentAccount) (m : Market)
    (start_year num_years : Z) (k : nat) (s : LoopState) :
  year_start g a m start_year k s ->
  Z.of_nat k < num_years ->
  (_snp_yearly m !! (_cur_year m + Z.of_nat k) = None ->
   go g a m start_year num_years = Raise (KeyError (_cur_year m + Z.of_nat k)))
  /\ (_year_to_inflation m !! (_cur_year m + Z.of_nat k) = None ->
      forall (text : string) (s' : LoopState),
        go g a m start_year num_years <> Ok ((true, text), s')).
Proof.
  intros Hs Hk.
  pose proof (year_start_clock _ _ _ _ _ _ Hs) as (Hyear & _ & Hsnp & Hinf & _).
  split.
  - intros Hmissing. destruct Hs as (s0 & Hinit & Hloop).
    unfold go. rewrite Hinit. cbn [bind].
    replace num_years with (Z.of_nat k + (num_years - Z.of_nat k)) by lia.
    rewrite seqZ_app, loop_app, Hloop by lia. cbn [bind fst snd].
    rewrite seqZ_cons by lia. cbn [loop]. unfold year_body, net_worth.
    rewrite current_price_missing; [now rewrite Hyear|].
    now rewrite Hsnp, Hyear.
  - intros Hmissing text s' Hgo. apply go_True_year_start in Hgo as [_ Hs'].
    destruct (year_start_earlier _ _ _ _ (S k) _ Hs') as (s2 & Hs2); [lia|].
    apply year_start_S in Hs2 as (s1 & Hs1 & Hbody).
    rewrite (year_start_functional _ _ _ _ _ _ _ Hs1 Hs) in Hbody.
    apply year_body_continue in Hbody
      as (w & n & a1 & a2 & i & row & _ & _ & _ & _ & Hi & _).
    unfold current_inflation, getitem in Hi.
    cbn [move_to_end_of_current_year _year_to_inflation _cur_year] in Hi.
    rewrite Hinf, Hyear, Hmissing in Hi. discriminate.
Qed.

(** ** The driver *)

Lemma run_rows_Ok (num_years : Z) (start_years : list Z)
    (display result : list (list string)) :
  run_rows g num_years start_years display = Ok result <->
  exists rows : list (list string),
    result = display ++ rows
    /\ Forall2 (fun y row => run_one g num_years y = Ok row) start_years rows.
Proof.
  revert display. induction start_years as [|y rest IH]; intros display;
    cbn [run_rows].
  - split.
    + intros Hr. apply Ok_inj in Hr as <-. exists []. split; [|constructor].
      now rewrite app_nil_r.
    + intros (rows & -> & Hrows). inversion Hrows. now rewrite app_nil_r.
  - split.
    + intros Hr. apply bind_Ok in Hr as (row & Hrow & Hr).
      apply IH in Hr as (rows & -> & Hrows). exists (row :: rows).
      split; [now rewrite <- app_assoc | now constructor].
    + intros (rows & -> & Hrows). inversion Hrows as [|? row ? rows' Hrow Hrest]; subst.
      rewrite Hrow. cbn [bind]. apply IH. exists rows'.
      split; [now rewrite <- app_assoc | exact Hrest].
Qed.

Lemma run_rows_Raise (num_years : Z) (before : list Z) (y : Z) (after : list Z)
    (display : list (list string)) (e : exn) :
  Forall (fun y' => exists row, run_one g num_years y' = Ok row) before ->
  run_one g num_years y = Raise e ->
  run_rows g num_years (before ++ y :: after) display = Raise e.
Proof.
  intros Hbefore Hy. revert display.
  induction Hbefore as [|y' before (row & Hrow) _ IH]; intros display;
    cbn [app run_rows].
  - now rewrite Hy.
  - rewrite Hrow. cbn [bind]. apply IH.
Qed.

(** X10: [run_strategy] returns the header followed by one row per start
    year, in the order of the start years, each row being what the body of
    its loop computes for that year alone from a fresh account and clock;
    and the first start year whose run raises makes the whole call raise
    that same exception, whatever comes after it. *)
Theorem run_strategy_row_per_start_year (start_years : list Z) (num_years : Z) :
  (forall display : list (list string),
      run_strategy g start_years num_years = Ok display <->
      exists rows : list (list string),
        display = display_header :: rows
        /\ Forall2 (fun y row => run_one g num_years y = Ok row) start_years rows)
  /\ (forall (before : list Z) (y : Z) (after : list Z) (e : exn),
        start_years = before ++ y :: after ->
        Forall (fun y' => exists row, run_one g num_years y' = Ok row) before ->
        run_one g num_years y = Raise e ->
        run_strategy g start_years num_years = Raise e).
Proof.
  split.
  - intros display. unfold run_strategy. apply run_rows_Ok.
  - intros before y after e -> Hbefore Hy. unfold run_strategy.
    now apply run_rows_Raise.
Qed.

(** ** More on inflation *)

(** X12: [get_inflation_percentage] and [nominal_to_real] raise [KeyError]
    for the first year of the period that has no entry in the inflation
    table, whatever amount is converted. *)
Theorem inflation_raises_at_first_missing_year (start_year num_years i : Z) :
  0 <= i < num_years ->
  (forall j : Z, 0 <= j < i -> is_Some (year_to_inflation g !! (start_year + j))) ->
  year_to_inflation g !! (start_year + i) = None ->
  get_inflation_percentage g start_year num_years
  = Raise (KeyError (start_year + i))
  /\ forall x : Q,
       nominal_to_real g x start_year num_years
       = Raise (KeyError (start_year + i)).
Proof.
  intros Hi Hbefore Hmissing.
  assert (Hget : get_inflation_percentage g start_year num_years
                 = Raise (KeyError (start_year + i))).
  { unfold get_inflation_percentage.
    replace num_years with (i + (num_years - i)) by lia.
    rewrite seqZ_app, compound_app by lia.
    destruct (compound g (seqZ start_year i) 1) as [f|e] eqn:Hpre.
    - cbn [bind]. rewrite seqZ_cons by lia. cbn [compound].
      unfold getitem. now rewrite Hmissing.
    - exfalso.
      assert (Hok : compound g (seqZ start_year i) 1
                    = Ok (fold_left Qmult
                            (map (fun y => (1 + rate_of g y)%Q) (seqZ start_year i)) 1%Q)).
      { apply compound_Ok. split; [|reflexivity]. intros y Hy.
        apply elem_of_seqZ in Hy.
        replace y with (start_year + (y - start_year)) by lia.
        apply Hbefore. lia. }
      congruence. }
  split; [exact Hget|]. intros x. unfold nominal_to_real. now rewrite Hget.
Qed.




End Coverage.

(** ** The further properties on concrete runs *)


Lemma go_True_final_state_witness :
  exists s : LoopState,
    @go plain_text spend_four fresh_account market_2000 2000 1
    = Ok ((true, ""), s)
    /\ _cur_year (market s) = 2000 + Z.max 0 1
    /\ head <$> debug_info s
       = Some (CStr "year") :: ((fun y => Some (CInt y)) <$> seqZ 2000 1).
Proof.
  assert (exists s, @go plain_text spend_four fresh_account market_2000 2000 1
                    = Ok ((true, ""), s)) as (s & Hgo).
  { eexists. vm_compute. reflexivity. }
  destruct (@go_True_final_state plain_text spend_four fresh_account market_2000
              2000 1 "" s Hgo) as (_ & Hyear & _ & _ & _ & Hrows).
  exists s. split; [exact Hgo|]. split; [exact Hyear | exact Hrows].
Defined.

Lemma successful_run_needs_the_year_after_witness :
  @run_strategy plain_text spend_four [2000] 1 = Raise (KeyError (2000 + 1)).
Proof.
  assert (exists s, @go plain_text spend_four (InvestmentAccount_init STARTING_CASH)
                      (Market_init (snp_yearly spend_four) 2000
                         (year_to_inflation spend_four)) 2000 1
                    = Ok ((true, ""), s)) as (s & Hgo).
  { eexists. vm_compute. reflexivity. }
  destruct (@successful_run_needs_the_year_after plain_text spend_four 2000 1
              "" s) as [_ Hrun].
  - lia.
  - exact Hgo.
  - reflexivity.
  - exact (Hrun []).
Defined.

Lemma missing_data_stops_the_run_witness :
  @go plain_text spend_four fresh_account market_2000 2000 2
  = Raise (KeyError (2000 + Z.of_nat 1)).
Proof.
  assert (exists s, @year_start plain_text spend_four fresh_account market_2000
                      2000 1 s) as (s & Hs).
  { eexists. eexists. split; vm_compute; reflexivity. }
  destruct (@missing_data_stops_the_run plain_text spend_four fresh_account
              market_2000 2000 2 1 s Hs) as [Hprice _].
  - simpl. lia.
  - apply Hprice. reflexivity.
Defined.

Lemma run_strategy_row_per_start_year_witness :
  exists rows : list (list string),
    [ display_header; [ "2000 - 2002"; "ran short in 2001"; ""; ""; ""; "" ] ]
    = display_header :: rows
    /\ Forall2 (fun y row => @run_one plain_text spend_ninety 2 y = Ok row)
         [2000] rows.
Proof.
  apply (proj1 (@run_strategy_row_per_start_year plain_text spend_ninety [2000] 2)).
  vm_compute. reflexivity.
Defined.

Lemma inflation_raises_at_first_missing_year_witness :
  get_inflation_percentage spend_four 2000 3 = Raise (KeyError (2000 + 2)).
Proof.
  apply (inflation_raises_at_first_missing_year spend_four 2000 3 2).
  - lia.
  - intros j Hj. assert (j = 0 \/ j = 1) as [-> | ->] by lia; eexists; reflexivity.
  - reflexivity.
Defined.


(** ** Stripping the colour codes *)

Lemma append_cons (c : Ascii.ascii) (s t : string) :
  String c s +:+ t = String c (s +:+ t).
Proof. reflexivity. Qed.

Lemma append_empty (s : string) : s +:+ "" = s.
Proof. induction s as [|c s IH]; [reflexivity|]. now rewrite append_cons, IH. Qed.

Lemma skip_while_length (p : Ascii.ascii -> bool) (s : string) :
  (String.length (skip_while p s) <= String.length s)%nat.
Proof.
  induction s as [|c s IH]; cbn; [lia|]. destruct (p c); cbn; lia.
Qed.

Lemma match_escape_shorter (s rest : string) :
  match_escape s = Some rest -> (String.length rest < String.length s)%nat.
Proof.
  destruct s as [|c0 [|c1 s]]; cbn [match_escape]; try discriminate.
  destruct (is_esc c0 && is_intro c1)%bool; [|discriminate].
  pose proof (skip_while_length is_param s) as H1.
  pose proof (skip_while_length is_inter (skip_while is_param s)) as H2.
  destruct (skip_while is_inter (skip_while is_param s)) as [|c r]; [discriminate|].
  destruct (is_final c); [|discriminate]. intros [= <-]. cbn in *. lia.
Qed.

(** The length of the string is fuel enough: more fuel changes nothing. *)
Lemma sub_escape_fuel (f1 f2 : nat) (s : string) :
  (String.length s <= f1)%nat -> (String.length s <= f2)%nat ->
  sub_escape f1 s = sub_escape f2 s.
Proof.
  revert f2 s. induction f1 as [|f1 IH]; intros f2 s H1 H2.
  - destruct s; [|cbn in H1; lia]. now destruct f2.
  - destruct f2 as [|f2]; [destruct s; [reflexivity | cbn in H2; lia]|].
    destruct s as [|c s]; [reflexivity|]. cbn [sub_escape].
    destruct (match_escape (String c s)) as [rest|] eqn:Hm.
    + apply match_escape_shorter in Hm. cbn in *. apply IH; lia.
    + f_equal. cbn in *. apply IH; lia.
Qed.

Lemma remove_ansi_codes_keep (c : Ascii.ascii) (s : string) :
  match_escape (String c s) = None ->
  remove_ansi_codes (String c s) = String c (remove_ansi_codes s).
Proof.
  intros Hm. unfold remove_ansi_codes. cbn [String.length sub_escape].
  now rewrite Hm.
Qed.

Lemma remove_ansi_codes_drop (s rest : string) :
  match_escape s = Some rest ->
  remove_ansi_codes s = remove_ansi_codes rest.
Proof.
  intros Hm. unfold remove_ansi_codes. pose proof (match_escape_shorter _ _ Hm).
  destruct s as [|c s]; [discriminate|]. cbn [String.length sub_escape].
  rewrite Hm. apply sub_escape_fuel; cbn in *; lia.
Qed.

Lemma match_escape_needs_esc (c : Ascii.ascii) (s : string) :
  is_esc c = false -> match_escape (String c s) = None.
Proof. intros Hc. destruct s; cbn [match_escape]; [reflexivity | now rewrite Hc]. Qed.

Lemma remove_ansi_codes_after_plain_text (text rest : string) :
  escape_free text ->
  remove_ansi_codes (text +:+ rest) = text +:+ remove_ansi_codes rest.
Proof.
  unfold escape_free. induction text as [|c text IH]; cbn [all_chars];
    [reflexivity|].
  intros Hfree. apply andb_true_iff in Hfree as [Hc Hfree].
  apply negb_true_iff in Hc. rewrite !append_cons.
  rewrite remove_ansi_codes_keep by now apply match_escape_needs_esc.
  now rewrite IH.
Qed.

(** The classes of the pattern that follow one another do not overlap. *)
Lemma classes_disjoint (c : Ascii.ascii) :
  (is_inter c = true -> is_param c = false)
  /\ (is_final c = true -> is_param c = false /\ is_inter c = false).
Proof.
  unfold is_inter, is_param, is_final, in_range.
  split; [intros Hc | intros Hc; split];
    apply andb_true_iff in Hc as [H1 H2];
    apply Nat.leb_le in H1; apply Nat.leb_le in H2;
    apply andb_false_iff;
    destruct (Nat.leb_spec 48 (Ascii.nat_of_ascii c));
    destruct (Nat.leb_spec 32 (Ascii.nat_of_ascii c));
    destruct (Nat.leb_spec (Ascii.nat_of_ascii c) 63);
    destruct (Nat.leb_spec (Ascii.nat_of_ascii c) 47);
    try (left; reflexivity); try (right; reflexivity); lia.
Qed.

Lemma skip_while_run (p : Ascii.ascii -> bool) (run : string) (c : Ascii.ascii)
    (rest : string) :
  all_chars p run = true -> p c = false ->
  skip_while p (run +:+ String c rest) = String c rest.
Proof.
  intros Hrun Hc. induction run as [|d run IH].
  - change ("" +:+ String c rest) with (String c rest). cbn [skip_while].
    now rewrite Hc.
  - cbn [all_chars] in Hrun. apply andb_true_iff in Hrun as [Hd Hrun].
    rewrite append_cons. cbn [skip_while]. rewrite Hd. now apply IH.
Qed.

Lemma match_escape_then (c1 : Ascii.ascii) (params inters : string)
    (final : Ascii.ascii) (rest : string) :
  is_intro c1 = true -> all_chars is_param params = true ->
  all_chars is_inter inters = true -> is_final final = true ->
  match_escape (escape_then c1 params inters final rest) = Some rest.
Proof.
  intros Hc1 Hparams Hinters Hfinal. unfold escape_then. cbn [match_escape].
  change (is_esc (Ascii.ascii_of_nat 27)) with true. rewrite Hc1. cbn [andb].
  destruct (classes_disjoint final) as [_ Hf]. destruct (Hf Hfinal) as [Hfp Hfi].
  assert (Hp : skip_while is_param (params +:+ (inters +:+ String final rest))
               = inters +:+ String final rest).
  { destruct inters as [|d inters].
    - now apply skip_while_run.
    - cbn [all_chars] in Hinters. apply andb_true_iff in Hinters as [Hd _].
      rewrite append_cons. apply skip_while_run; [exact Hparams|].
      exact (proj1 (classes_disjoint d) Hd). }
  rewrite Hp, (skip_while_run is_inter inters final rest Hinters Hfi).
  now rewrite Hfinal.
Qed.

Lemma sub_escape_no_longer (fuel : nat) (s : string) :
  (String.length (sub_escape fuel s) <= String.length s)%nat.
Proof.
  revert s. induction fuel as [|fuel IH]; intros s; cbn [sub_escape]; [lia|].
  destruct s as [|c s]; [cbn; lia|].
  destruct (match_escape (String c s)) as [rest|] eqn:Hm.
  - apply match_escape_shorter in Hm. specialize (IH rest). lia.
  - specialize (IH s). cbn in *. lia.
Qed.

(** X16: [remove_ansi_codes] returns a string without the character ESC
    unchanged, and it never returns a string longer than the one it is
    given. *)
Theorem remove_ansi_codes_keeps_plain_text (s : string) :
  (String.length (remove_ansi_codes s) <= String.length s)%nat
  /\ (escape_free s -> remove_ansi_codes s = s).
Proof.
  split; [apply sub_escape_no_longer|]. intros Hfree.
  pose proof (remove_ansi_codes_after_plain_text s "" Hfree) as Hs.
  change (remove_ansi_codes "") with "" in Hs. now rewrite !append_empty in Hs.
Qed.

Lemma remove_ansi_codes_keeps_plain_text_witness :
  remove_ansi_codes "ran short in 2001" = "ran short in 2001".
Proof.
  apply (proj2 (remove_ansi_codes_keeps_plain_text "ran short in 2001")).
  reflexivity.
Defined.

(** X17: an escape sequence (ESC, a character from [@] to [_], characters
    from [0] to [?], characters from space to [/], a character from [@] to
    [~]) that stands behind text without ESC is removed and the text before
    it is kept; so a text without ESC that is wrapped in two such sequences,
    as a coloured text is, comes back as the text alone. *)
Theorem remove_ansi_codes_strips_escape_sequences (c1 : Ascii.ascii)
    (params inters : string) (final : Ascii.ascii) (text rest : string) :
  is_intro c1 = true -> all_chars is_param params = true ->
  all_chars is_inter inters = true -> is_final final = true ->
  escape_free text ->
  remove_ansi_codes (text +:+ escape_then c1 params inters final rest)
  = text +:+ remove_ansi_codes rest
  /\ forall (c1' : Ascii.ascii) (params' inters' : string) (final' : Ascii.ascii),
       is_intro c1' = true -> all_chars is_param params' = true ->
       all_chars is_inter inters' = true -> is_final final' = true ->
       remove_ansi_codes
         (escape_then c1 params inters final
            (text +:+ escape_then c1' params' inters' final' ""))
       = text.
Proof.
  intros Hc1 Hparams Hinters Hfinal Hfree. split.
  - rewrite (remove_ansi_codes_after_plain_text _ _ Hfree).
    now rewrite (remove_ansi_codes_drop _ rest)
      by now apply match_escape_then.
  - intros c1' params' inters' final' Hc1' Hparams' Hinters' Hfinal'.
    rewrite (remove_ansi_codes_drop _ (text +:+ escape_then c1' params' inters' final' ""))
      by now apply match_escape_then.
    rewrite (remove_ansi_codes_after_plain_text _ _ Hfree).
    rewrite (remove_ansi_codes_drop _ "") by now apply match_escape_then.
    apply append_empty.
Qed.

Lemma remove_ansi_codes_strips_escape_sequences_witness :
  let bracket := Ascii.ascii_of_nat 91 in
  let m := Ascii.ascii_of_nat 109 in
  remove_ansi_codes
    (escape_then bracket "31" "" m
       ("ran short in 2001" +:+ escape_then bracket "0" "" m ""))
  = "ran short in 2001".
Proof.
  apply (proj2 (remove_ansi_codes_strips_escape_sequences
                  (Ascii.ascii_of_nat 91) "31" "" (Ascii.ascii_of_nat 109)
                  "ran short in 2001" ""
                  eq_refl eq_refl eq_refl eq_refl eq_refl)
           (Ascii.ascii_of_nat 91) "0" "" (Ascii.ascii_of_nat 109));
    reflexivity.
Defined.

(** ** The start years of sim_buy_and_hold *)

Lemma index_range_within (l : list Z) (k : Z) :
  0 <= k <= Z.of_nat (length l) ->
  mapM (fun i => l !! Z.to_nat i) (seqZ 0 k) = Some (take (Z.to_nat k) l).
Proof.
  intros Hk. apply mapM_Some, Forall2_same_length_lookup. split.
  - rewrite length_seqZ, length_take. lia.
  - intros i x y Hx Hy. apply lookup_seqZ in Hx as [-> Hi].
    apply lookup_take_Some in Hy as [Hy _]. now rewrite Z.add_0_l, Nat2Z.id.
Qed.

Lemma index_range_beyond (l : list Z) (k : Z) :
  Z.of_nat (length l) < k ->
  mapM (fun i => l !! Z.to_nat i) (seqZ 0 k) = None.
Proof.
  intros Hk. apply mapM_None, Exists_exists. exists (Z.of_nat (length l)). split.
  - apply elem_of_seqZ. lia.
  - rewrite Nat2Z.id. now apply lookup_ge_None.
Qed.

Lemma sorted_years_spec (g : Globals) :
  Sorted Z.le (sorted_years g)
  /\ NoDup (sorted_years g)
  /\ forall y : Z, y ∈ sorted_years g <-> is_Some (snp_yearly g !! y).
Proof.
  unfold sorted_years.
  pose proof (merge_sort_Permutation Z.le (elements (dom (snp_yearly g)))) as Hperm.
  split; [apply (Sorted_merge_sort Z.le)|]. split.
  - rewrite Hperm. apply NoDup_elements.
  - intros y. rewrite Hperm, elem_of_elements. apply elem_of_dom.
Qed.

(** X18: with [only_year] given, the command simulates that one start year.
    Without it and with [num_years >= 0] its start years are the data years
    in ascending order without the last [num_years] of them (none when there
    are not more than [num_years] data years): each is a year of the price
    table, and there are [len - num_years] of them.  Without [only_year] and
    with a negative [num_years] the command fails with the [IndexError] of
    [years[iyear]]. *)
Theorem start_years_of_the_command (g : Globals) (num_years : Z) :
  (forall year : Z, start_years g num_years (Some year) = Some [year])
  /\ (num_years < 0 -> start_years g num_years None = None)
  /\ (0 <= num_years ->
      start_years g num_years None
      = Some (take (length (sorted_years g) - Z.to_nat num_years) (sorted_years g))
      /\ Sorted Z.le (sorted_years g)
      /\ forall y : Z, y ∈ sorted_years g <-> is_Some (snp_yearly g !! y)).
Proof.
  split; [reflexivity|]. split.
  - intros Hn. unfold start_years. apply index_range_beyond. lia.
  - intros Hn. destruct (sorted_years_spec g) as (Hsorted & _ & Hmem).
    split; [|split; assumption]. unfold start_years.
    destruct (Z_le_gt_dec num_years (Z.of_nat (length (sorted_years g)))) as [Hle|Hgt].
    + rewrite index_range_within by lia. do 2 f_equal. lia.
    + rewrite seqZ_nil by lia.
      replace (length (sorted_years g) - Z.to_nat num_years)%nat with 0%nat by lia.
      reflexivity.
Qed.

Lemma start_years_of_the_command_witness :
  start_years spend_ninety (-1) None = None
  /\ start_years spend_ninety 2 None
     = Some (take (length (sorted_years spend_ninety) - Z.to_nat 2)
                  (sorted_years spend_ninety)).
Proof.
  split.
  - destruct (start_years_of_the_command spend_ninety (-1)) as (_ & Hnegative & _).
    apply Hnegative. lia.
  - destruct (start_years_of_the_command spend_ninety 2) as (_ & _ & Hdefault).
    apply Hdefault. lia.
Defined.

(** ** The yearly price table *)

Lemma date_ltb_lt (a b : date) : date_ltb a b = true <-> date_lt a b.
Proof.
  unfold date_ltb, date_lt.
  rewrite !orb_true_iff, !andb_true_iff, !orb_true_iff, !andb_true_iff,
    !Z.ltb_lt, !Z.eqb_eq.
  reflexivity.
Qed.

Lemma min_from_spec (l : list (date * SnpRow)) (best : date * SnpRow) :
  min_from best l ∈ best :: l
  /\ forall x, x ∈ best :: l -> ~ date_lt (fst x) (fst (min_from best l)).
Proof.
  revert best. induction l as [|x0 l IH]; intros best; cbn [min_from].
  - split; [left|]. intros x Hx. apply list_elem_of_singleton in Hx as ->.
    unfold date_lt. lia.
  - destruct (IH (if date_ltb (fst x0) (fst best) then x0 else best)) as [Hin Hmin].
    split.
    + apply elem_of_cons in Hin as [Hin | Hin].
      * rewrite Hin. destruct (date_ltb _ _); [right; left | left].
      * right. now right.
    + intros x Hx. apply elem_of_cons in Hx as [-> | Hx].
      * destruct (date_ltb (fst x0) (fst best)) eqn:Hlt.
        -- apply date_ltb_lt in Hlt. specialize (Hmin x0 ltac:(left)).
           unfold date_lt in *. lia.
        -- apply Hmin. left.
      * apply elem_of_cons in Hx as [-> | Hx]; [|apply Hmin; now right].
        destruct (date_ltb (fst x0) (fst best)) eqn:Hlt; [apply Hmin; left|].
        apply not_true_iff_false in Hlt. rewrite date_ltb_lt in Hlt.
        specialize (Hmin best ltac:(left)). unfold date_lt in *. lia.
Qed.

Lemma max_from_spec (l : list (date * SnpRow)) (best : date * SnpRow) :
  max_from best l ∈ best :: l
  /\ forall x, x ∈ best :: l -> ~ date_lt (fst (max_from best l)) (fst x).
Proof.
  revert best. induction l as [|x0 l IH]; intros best; cbn [max_from].
  - split; [left|]. intros x Hx. apply list_elem_of_singleton in Hx as ->.
    unfold date_lt. lia.
  - destruct (IH (if date_ltb (fst best) (fst x0) then x0 else best)) as [Hin Hmax].
    split.
    + apply elem_of_cons in Hin as [Hin | Hin].
      * rewrite Hin. destruct (date_ltb _ _); [right; left | left].
      * right. now right.
    + intros x Hx. apply elem_of_cons in Hx as [-> | Hx].
      * destruct (date_ltb (fst best) (fst x0)) eqn:Hlt.
        -- apply date_ltb_lt in Hlt. specialize (Hmax x0 ltac:(left)).
           unfold date_lt in *. lia.
        -- apply Hmax. left.
      * apply elem_of_cons in Hx as [-> | Hx]; [|apply Hmax; now right].
        destruct (date_ltb (fst best) (fst x0)) eqn:Hlt; [apply Hmax; left|].
        apply not_true_iff_false in Hlt. rewrite date_ltb_lt in Hlt.
        specialize (Hmax best ltac:(left)). unfold date_lt in *. lia.
Qed.

Lemma elem_of_samples_of (all_dates : list (date * SnpRow)) (y : Z)
    (x : date * SnpRow) :
  x ∈ samples_of all_dates y <-> x ∈ all_dates /\ d_year (fst x) = y.
Proof.
  unfold samples_of. rewrite !list_elem_of_In, filter_In, Z.eqb_eq. reflexivity.
Qed.

Lemma elem_of_sample_years (all_dates : list (date * SnpRow)) (y : Z) :
  y ∈ sample_years all_dates <-> exists x, x ∈ all_dates /\ d_year (fst x) = y.
Proof.
  unfold sample_years. rewrite merge_sort_Permutation, elem_of_elements,
    elem_of_list_to_set, list_elem_of_In, in_map_iff.
  split; intros (x & Hx1 & Hx2); exists x.
  - now rewrite list_elem_of_In.
  - now rewrite <- list_elem_of_In.
Qed.

Lemma snp_year_of_Some (all_dates : list (date * SnpRow)) (y : Z) :
  (exists x, x ∈ all_dates /\ d_year (fst x) = y) ->
  exists r, snp_year_of all_dates y = Some r /\ opens_and_closes all_dates y r.
Proof.
  intros (x & Hx & Hy). apply (conj Hx), elem_of_samples_of in Hy.
  unfold snp_year_of.
  pose proof (elem_of_samples_of all_dates y) as Hmem.
  destruct (samples_of all_dates y) as [|x0 rest]; [now apply elem_of_nil in Hy|].
  cbn [min_by_date max_by_date].
  destruct (min_from_spec rest x0) as [Hmin_in Hmin].
  destruct (max_from_spec rest x0) as [Hmax_in Hmax].
  eexists. split; [reflexivity|]. split; [reflexivity|].
  exists (min_from x0 rest), (max_from x0 rest).
  apply Hmem in Hmin_in as [? ?]. apply Hmem in Hmax_in as [? ?].
  repeat (split; [assumption || reflexivity|]).
  intros x' Hx' Hy'. apply (conj Hx'), Hmem in Hy'. split; [now apply Hmin | now apply Hmax].
Qed.

Lemma snp_years_Some (all_dates : list (date * SnpRow)) (years : list Z)
    (table : gmap Z SnpYear) :
  Forall (fun y => exists x, x ∈ all_dates /\ d_year (fst x) = y) years ->
  exists table' : gmap Z SnpYear,
    snp_years all_dates years table = Some table'
    /\ forall y : Z,
         (y ∈ years -> table' !! y = snp_year_of all_dates y)
         /\ (y ∉ years -> table' !! y = table !! y).
Proof.
  intros Hyears. revert table.
  induction Hyears as [|y0 rest Hy0 _ IH]; intros table; cbn [snp_years].
  - exists table. split; [reflexivity|]. intros y. split; [|reflexivity].
    intros Hy. now apply elem_of_nil in Hy.
  - destruct (snp_year_of_Some all_dates y0 Hy0) as (r & Hr & _). rewrite Hr.
    destruct (IH (<[y0 := r]> table)) as (table' & Hloop & Htable).
    exists table'. split; [exact Hloop|]. intros y.
    destruct (Htable y) as [Hin Hout]. split.
    + intros Hy. destruct (decide (y ∈ rest)) as [Hrest | Hrest]; [now apply Hin|].
      apply elem_of_cons in Hy as [-> | Hy]; [|contradiction].
      rewrite (Hout Hrest), lookup_insert_eq. now rewrite Hr.
    + intros Hy. apply not_elem_of_cons in Hy as [Hne Hrest].
      rewrite (Hout Hrest). now apply lookup_insert_ne.
Qed.

(** X20: the construction of the yearly price table never fails (its [min]
    and [max] are never taken of an empty list) and the table it builds has a
    record exactly for the years in which the sheet has a row.  The record
    of a year carries that year, the [Open] of a row of the year with the
    earliest date and the [Close] of a row of the year with the latest
    date. *)
Theorem load_snp_yearly_opens_and_closes (all_dates : list (date * SnpRow)) :
  exists table : gmap Z SnpYear,
    load_snp_yearly all_dates = Some table
    /\ forall y : Z,
         match table !! y with
         | Some r => opens_and_closes all_dates y r
         | None => forall x, x ∈ all_dates -> d_year (fst x) <> y
         end.
Proof.
  unfold load_snp_yearly.
  destruct (snp_years_Some all_dates (sample_years all_dates) ∅)
    as (table & Hloop & Htable).
  { apply Forall_forall. intros y. apply elem_of_sample_years. }
  exists table. split; [exact Hloop|]. intros y. destruct (Htable y) as [Hin Hout].
  destruct (decide (y ∈ sample_years all_dates)) as [Hy | Hy].
  - rewrite (Hin Hy). apply elem_of_sample_years in Hy.
    destruct (snp_year_of_Some all_dates y Hy) as (r & -> & Hr). exact Hr.
  - rewrite (Hout Hy), lookup_empty. intros x Hx Hyear. apply Hy.
    apply elem_of_sample_years. now exists x.
Qed.

(** ** The inflation table *)

Lemma month_loop_Loaded (float : string -> option Q) (row : InflationRow)
    (ms : list string) (total : Q) (num_good : Z) (total' : Q) (num_good' : Z) :
  month_loop float row ms total num_good = Loaded (total', num_good') ->
  exists rates : list Q,
    Forall2 (fun cur x => float (remove_percent cur) = Some x)
            (good_cells row ms) rates
    /\ (total' == total + Qsum (map (fun x => x / 100) rates))%Q
    /\ num_good' = num_good + Z.of_nat (length rates).
Proof.
  revert total num_good. induction ms as [|month rest IH]; intros total num_good;
    cbn [month_loop good_cells omap list_omap].
  - intros [= <- <-]. exists []. split; [constructor|]. split; [cbn; lra | cbn; lia].
  - destruct (column row month) as [cur|]; [|apply IH].
    destruct (float (remove_percent cur)) as [x|] eqn:Hx; [|discriminate].
    intros Hloop. apply IH in Hloop as (rates & Hrates & Htotal & Hgood).
    exists (x :: rates). split; [now constructor|]. split.
    + rewrite Htotal. cbn [map Qsum fold_right]. fold (Qsum (map (fun x => x / 100) rates))%Q.
      lra.
    + cbn [length]. lia.
Qed.

Lemma month_loop_returns (float : string -> option Q) (row : InflationRow)
    (ms : list string) (total : Q) (num_good : Z) :
  Forall (fun cur => is_Some (float (remove_percent cur))) (good_cells row ms) ->
  exists total' : Q,
    month_loop float row ms total num_good
    = Loaded (total', num_good + Z.of_nat (length (good_cells row ms))).
Proof.
  revert total num_good. induction ms as [|month rest IH]; intros total num_good;
    cbn [month_loop good_cells omap list_omap].
  - intros _. exists total. cbn [length]. now rewrite Z.add_0_r.
  - destruct (column row month) as [cur|]; [|apply IH].
    intros Hall. inversion Hall as [|? ? [x Hx] Hrest]; subst. rewrite Hx.
    destruct (IH (total + x / 100)%Q (num_good + 1) Hrest) as (total' & ->).
    exists total'. cbn [length]. unfold good_cells.
    apply f_equal, f_equal. lia.
Qed.

Lemma inflation_row_Loaded (float : string -> option Q) (row : InflationRow)
    (r : Q) :
  inflation_row float row = Loaded r ->
  exists rates : list Q,
    Forall2 (fun cur x => float (remove_percent cur) = Some x)
            (good_cells row months) rates
    /\ rates <> []
    /\ (r == Qsum (map (fun x => x / 100) rates)
             / inject_Z (Z.of_nat (length rates)))%Q.
Proof.
  unfold inflation_row.
  destruct (month_loop float row months 0 0) as [[total num_good]|] eqn:Hloop;
    [|discriminate].
  apply month_loop_Loaded in Hloop as (rates & Hrates & Htotal & ->).
  destruct (truediv 12 _) as [f|] eqn:Hf; [|discriminate].
  apply truediv_Ok in Hf as [Hnz ->]. intros [= <-]. rewrite Z.add_0_l in *.
  exists rates. split; [exact Hrates|]. split.
  - intros ->. apply Hnz. reflexivity.
  - rewrite Htotal. field. exact Hnz.
Qed.

Lemma inflation_row_returns (float : string -> option Q) (row : InflationRow) :
  (exists r : Q, inflation_row float row = Loaded r)
  <-> good_cells row months <> []
      /\ Forall (fun cur => is_Some (float (remove_percent cur)))
                (good_cells row months).
Proof.
  split.
  - intros (r & Hr). apply inflation_row_Loaded in Hr as (rates & Hrates & Hne & _).
    split.
    + intros Hnil. rewrite Hnil in Hrates. inversion Hrates. congruence.
    + clear Hne. induction Hrates; constructor; eauto.
  - intros [Hne Hall]. unfold inflation_row.
    destruct (month_loop_returns float row months 0 0 Hall) as (total & ->).
    rewrite truediv_pos; [eauto|]. rewrite Z.add_0_l.
    destruct (good_cells row months); [congruence|].
    unfold Qlt, inject_Z. cbn [Qnum Qden length]. lia.
Qed.

Lemma inflation_row_without_values (float : string -> option Q)
    (row : InflationRow) :
  good_cells row months = [] ->
  inflation_row float row = LoadRaise (Builtin ZeroDivisionError).
Proof.
  intros Hnil. unfold inflation_row.
  destruct (month_loop_returns float row months 0 0) as (total & ->).
  { rewrite Hnil. constructor. }
  rewrite Hnil. reflexivity.
Qed.

Lemma inflation_rows_Loaded (float : string -> option Q)
    (rows : list InflationRow) (ret table : gmap Z Q) :
  inflation_rows float rows ret = Loaded table ->
  forall y : Z,
    (Forall (fun row => Year row <> y) rows /\ table !! y = ret !! y)
    \/ exists (before : list InflationRow) (row : InflationRow)
              (after : list InflationRow) (r : Q),
         rows = before ++ row :: after
         /\ Year row = y
         /\ Forall (fun row' => Year row' <> y) after
         /\ inflation_row float row = Loaded r
         /\ table !! y = Some r.
Proof.
  revert ret. induction rows as [|row rest IH]; intros ret; cbn [inflation_rows].
  - intros [= <-] y. left. split; [constructor | reflexivity].
  - destruct (inflation_row float row) as [r|] eqn:Hrow; [|discriminate].
    intros Hloop y.
    destruct (IH _ Hloop y)
      as [[Hrest Htable] | (before & row' & after & r' & -> & Hy & Hafter & Hr' & Htable)].
    + destruct (decide (Year row = y)) as [<- | Hy].
      * right. exists [], row, rest, r. rewrite Htable, lookup_insert_eq.
        split; [reflexivity|]. split; [reflexivity|]. split; [exact Hrest|].
        split; [exact Hrow | reflexivity].
      * left. split; [now constructor|]. rewrite Htable. now apply lookup_insert_ne.
    + right. exists (row :: before), row', after, r'.
      split; [reflexivity|]. split; [exact Hy|]. split; [exact Hafter|].
      split; [exact Hr' | exact Htable].
Qed.

(** X21: in the table the loader returns, a year has an entry exactly when
    the sheet has a row for it, and the entry is the one the body of the
    loop computes for the last such row, a later row for a year replacing an
    earlier one.  That row has at least one month that holds a string, and
    [float] has accepted each of these strings once its percent signs were
    removed. *)
Theorem inflation_table_entry_comes_from_the_last_row (float : string -> option Q)
    (rows : list InflationRow) (table : gmap Z Q) :
  get_inflation_data float rows = Loaded table ->
  forall y : Z,
    match table !! y with
    | None => Forall (fun row => Year row <> y) rows
    | Some r =>
        exists (before : list InflationRow) (row : InflationRow)
               (after : list InflationRow) (rates : list Q),
          rows = before ++ row :: after
          /\ Year row = y
          /\ Forall (fun row' => Year row' <> y) after
          /\ inflation_row float row = Loaded r
          /\ Forall2 (fun cur x => float (remove_percent cur) = Some x)
                     (good_cells row months) rates
          /\ rates <> []
    end.
Proof.
  intros Hload y. unfold get_inflation_data in Hload.
  destruct (inflation_rows_Loaded float rows ∅ table Hload y)
    as [[Hnone Htable] | (before & row & after & r & Hrows & Hy & Hafter & Hr & Htable)].
  - rewrite Htable, lookup_empty. exact Hnone.
  - rewrite Htable.
    destruct (inflation_row_Loaded float row r Hr) as (rates & Hrates & Hne & _).
    exists before, row, after, rates.
    split; [exact Hrows|]. split; [exact Hy|]. split; [exact Hafter|].
    split; [exact Hr|]. split; [exact Hrates | exact Hne].
Qed.

Lemma inflation_rows_returns (float : string -> option Q)
    (rows : list InflationRow) (ret : gmap Z Q) :
  (exists table, inflation_rows float rows ret = Loaded table)
  <-> Forall (fun row => exists r, inflation_row float row = Loaded r) rows.
Proof.
  revert ret. induction rows as [|row rest IH]; intros ret; cbn [inflation_rows].
  - split; [constructor | eauto].
  - destruct (inflation_row float row) as [r|e] eqn:Hrow.
    + rewrite IH. split.
      * intros Hrest. constructor; [eauto | exact Hrest].
      * intros Hall. now inversion Hall.
    + split.
      * intros (table & Htable). discriminate.
      * intros Hall. inversion Hall as [|? ? (r & Hr) _]; subst. congruence.
Qed.

Lemma inflation_rows_Raise (float : string -> option Q)
    (before : list InflationRow) (row : InflationRow)
    (after : list InflationRow) (ret : gmap Z Q) (e : load_exn) :
  Forall (fun row' => exists r, inflation_row float row' = Loaded r) before ->
  inflation_row float row = LoadRaise e ->
  inflation_rows float (before ++ row :: after) ret = LoadRaise e.
Proof.
  intros Hbefore Hrow. revert ret.
  induction Hbefore as [|row' before (r & Hr) _ IH]; intros ret;
    cbn [app inflation_rows].
  - now rewrite Hrow.
  - rewrite Hr. apply IH.
Qed.

(** X22: the loader returns a table exactly when every row of the sheet has
    at least one month that holds a string and [float] accepts each of these
    strings once its percent signs are removed.  The first row that has no
    such month makes it raise [ZeroDivisionError], out of [12 / num_good],
    when the rows before it are in order. *)
Theorem inflation_loader_needs_a_value_per_row (float : string -> option Q)
    (rows : list InflationRow) :
  ((exists table, get_inflation_data float rows = Loaded table)
   <-> Forall (fun row =>
                 good_cells row months <> []
                 /\ Forall (fun cur => is_Some (float (remove_percent cur)))
                           (good_cells row months)) rows)
  /\ forall (before : list InflationRow) (row : InflationRow)
            (after : list InflationRow),
       rows = before ++ row :: after ->
       Forall (fun row' =>
                 good_cells row' months <> []
                 /\ Forall (fun cur => is_Some (float (remove_percent cur)))
                           (good_cells row' months)) before ->
       good_cells row months = [] ->
       get_inflation_data float rows = LoadRaise (Builtin ZeroDivisionError).
Proof.
  split.
  - unfold get_inflation_data. rewrite inflation_rows_returns.
    apply Forall_iff. intros row. apply inflation_row_returns.
  - intros before row after -> Hbefore Hnil. unfold get_inflation_data.
    apply inflation_rows_Raise; [|now apply inflation_row_without_values].
    eapply Forall_impl; [exact Hbefore|]. intros row' Hrow'.
    now apply inflation_row_returns.
Qed.

Lemma inflation_table_entry_comes_from_the_last_row_witness :
  exists table : gmap Z Q,
    get_inflation_data two_numbers [row_2000] = Loaded table
    /\ forall y : Z,
         match table !! y with
         | None => Forall (fun row => Year row <> y) [row_2000]
         | Some r =>
             exists (before : list InflationRow) (row : InflationRow)
                    (after : list InflationRow) (rates : list Q),
               [row_2000] = before ++ row :: after
               /\ Year row = y
               /\ Forall (fun row' => Year row' <> y) after
               /\ inflation_row two_numbers row = Loaded r
               /\ Forall2 (fun cur x => two_numbers (remove_percent cur) = Some x)
                          (good_cells row months) rates
               /\ rates <> []
         end.
Proof.
  eexists. split; [vm_compute; reflexivity|].
  apply (inflation_table_entry_comes_from_the_last_row two_numbers [row_2000]).
  vm_compute. reflexivity.
Defined.

Lemma inflation_loader_needs_a_value_per_row_witness :
  get_inflation_data two_numbers [row_2000; row_2001]
  = LoadRaise (Builtin ZeroDivisionError).
Proof.
  destruct (inflation_loader_needs_a_value_per_row two_numbers [row_2000; row_2001])
    as [_ Hraise].
  apply (Hraise [row_2000] row_2001 []).
  - reflexivity.
  - constructor; [|constructor]. split; [discriminate|].
    repeat constructor; eexists; reflexivity.
  - reflexivity.
Defined.

(** * Binary64: what rounding decides

    The statements from here on are about the module [Binary64], the code
    with the arithmetic the interpreter performs. *)

Import Binary64.

(** ** The sign of a rounded result *)












(** ** Order and subtraction *)







(** ** From the specification to the primitive operations *)

Lemma SFcompare_antisym (x y : spec_float) :
  SFcompare y x = option_map CompOpp (SFcompare x y).
Proof.
  destruct x as [sx|sx| |sx mx ex], y as [sy|sy| |sy my ey]; cbn;
    try reflexivity; try (destruct sx; reflexivity); try (destruct sy; reflexivity);
    try (destruct sx, sy; reflexivity).
  destruct sx, sy; cbn; try reflexivity.
  - rewrite (Z.compare_antisym ex ey). destruct (ex ?= ey); cbn; try reflexivity.
    change (Pos.compare_cont Eq my mx) with (my ?= mx)%positive.
    change (Pos.compare_cont Eq mx my) with (mx ?= my)%positive.
    rewrite (Pos.compare_antisym mx my). now destruct (mx ?= my)%positive.
  - rewrite (Z.compare_antisym ex ey). destruct (ex ?= ey); cbn; try reflexivity.
    change (Pos.compare_cont Eq my mx) with (my ?= mx)%positive.
    change (Pos.compare_cont Eq mx my) with (mx ?= my)%positive.
    rewrite (Pos.compare_antisym mx my). now destruct (mx ?= my)%positive.
Qed.






















(** ** Multiplication by one *)

Lemma bounded_fexp (m : positive) (e : Z) :
  bounded prec emax m e = true ->
  fexp prec emax (Z.pos (digits2_pos m) + e) = e /\ (e <=? emax - prec) = true.
Proof.
  unfold bounded, canonical_mantissa. intros H. apply andb_prop in H as [H1 H2].
  apply Z.eqb_eq in H1. now split.
Qed.

Lemma SFmul_one (x : spec_float) :
  valid_binary x = true ->
  SFmul prec emax x (S754_finite false 4503599627370496 (-52)) = x.
Proof.
  destruct x as [s|s| |s m e]; cbn [SFmul valid_binary]; intros Hv;
    try (now destruct s); try reflexivity.
  apply bounded_fexp in Hv as [Hfexp Hmax].
  rewrite xorb_false_r, Pos.mul_comm.
  lazy beta iota fix delta [Pos.mul].
  unfold binary_round_aux, shr_fexp.
  cbn [Zdigits2 digits2_pos shr_record_of_loc].
  set (d := digits2_pos m) in *.
  match goal with |- context [fexp prec emax (Z.pos ?k + (e + -52))] =>
    replace (Z.pos k + (e + -52)) with (Z.pos d + e) by lia end.
  rewrite Hfexp. replace (e - (e + -52)) with 52 by lia.
  cbn -[fexp Z.add Z.sub Z.leb].
  replace (e + -52 + 52) with e by lia. fold d. rewrite Hfexp, Z.sub_diag.
  cbn [shr shr_m]. now rewrite Hmax.
Qed.

Lemma mul_1_r (x : float) : (x * 1)%float = x.
Proof.
  apply Prim2SF_inj. rewrite FloatAxioms.mul_spec.
  change (Prim2SF 1) with (S754_finite false 4503599627370496 (-52)).
  apply SFmul_one, Prim2SF_valid.
Qed.

(** ** The ledger keeps its signs *)




(** ** The initial purchase *)

(** C9 at the failing input: with a price of 24390.243902439026 in 2000 the
    quotient [1e6 / price] is rounded to 41, [math.floor] returns 41, and 41
    shares cost 1000000.0000000001, more than the cash: the [assert] of
    [buy_stock] fails and [go] ends in [AssertionError], whatever the
    spending percentage, the mode and the number of years.  The price is
    positive and the cash is not negative. *)
Theorem initial_buy_fails_the_assert `{Externals} (percentage : float)
    (fixed : bool) (num_years : Z) :
  let snp := one_year price_24390 in
  let m := Market_init snp 2000 no_inflation in
  current_price m = Ok price_24390
  /\ (0 <? price_24390)%float = true
  /\ nonneg (cash_available fresh_account)
  /\ truediv (cash_available fresh_account) price_24390 = Ok 41%float
  /\ floor 41 = Ok 41
  /\ (price_24390 * 41 <=? cash_available fresh_account)%float = false
  /\ buy_stock m 41 fresh_account = Raise AssertionError
  /\ go (cli percentage fixed snp no_inflation) fresh_account m 2000 num_years
     = Raise AssertionError.
Proof.
  cbv zeta. repeat split; vm_compute; reflexivity.
Qed.

(** ** The sale that does not cover the withdrawal *)

(** C3 at the failing input: at 4 percent, with a price of 144.5 in 2000 and
    of 145.14 in 2001, the year 2001 starts with 86.5 in cash and 6643
    shares.  The withdrawal is 40000, the quotient
    [(40000 - 86.5) / 145.14] is rounded to 275 exactly, so 275 shares are
    sold; [sell_stock] returns [True] at a positive price and leaves
    39999.999999999993 in cash, [spend_cash 40000] returns [False], and [go]
    returns [(False, colored('failed to spend cash?', 'yellow'))]. *)
Theorem spend_fails_after_a_successful_sale `{Externals} :
  let snp := two_years 144.5 price_145 in
  let g := cli 4 true snp no_inflation in
  let m := Market_init snp 2000 no_inflation in
  exists (s1 : LoopState) (a2 : InvestmentAccount),
    go g fresh_account m 2000 1 = Ok ((true, ""), s1)
    /\ account s1 = mkAccount 86.5 6643
    /\ current_price (market s1) = Ok price_145
    /\ (0 <? price_145)%float = true
    /\ this_year_withdrawal g s1 = Ok 40000%float
    /\ num_shares_to_sell 40000 s1 = Ok 275
    /\ sell_stock (market s1) 275 (account s1) = Ok (true, a2)
    /\ (_cash a2 <? 40000)%float = true
    /\ spend_cash 40000 a2 = (false, a2)
    /\ exists s : LoopState,
         go g fresh_account m 2000 2
         = Ok ((false, colored "failed to spend cash?" "yellow"), s).
Proof.
  cbv zeta. eexists. eexists.
  split; [vm_compute; reflexivity|].
  split; [reflexivity|].
  split; [vm_compute; reflexivity|].
  split; [vm_compute; reflexivity|].
  split; [vm_compute; reflexivity|].
  split; [vm_compute; reflexivity|].
  split; [vm_compute; reflexivity|].
  split; [vm_compute; reflexivity|].
  split; [vm_compute; reflexivity|].
  eexists. vm_compute. reflexivity.
Qed.

(** ** Inflation *)

Lemma ltb_differ (x y : float) :
  (x <? y)%float = true -> (x <? y)%float = true /\ x <> y.
Proof.
  intros Hlt. split; [exact Hlt|]. intros ->. rewrite FloatAxioms.ltb_spec in Hlt.
  unfold SFltb in Hlt. destruct (Prim2SF y) as [s|s| |s m e]; cbn in Hlt;
    try discriminate; try (destruct s; discriminate).
  rewrite Z.compare_refl, Pos.compare_cont_refl in Hlt. destruct s; discriminate.
Qed.

Lemma compound_fold (g : Globals) (years : list Z) (percent : float) :
  (forall y, y ∈ years -> is_Some (year_to_inflation g !! y)) ->
  compound g years percent
  = Ok (fold_left (fun acc y => acc * (1 + rate_of g y))%float years percent).
Proof.
  revert percent. induction years as [|y rest IH]; intros percent Hall;
    cbn [compound fold_left]; [reflexivity|].
  destruct (Hall y) as [r Hr]; [apply list_elem_of_here|].
  unfold getitem, rate_of. rewrite Hr. cbn [bind default]. apply IH.
  intros z Hz. apply Hall. now apply list_elem_of_further.
Qed.

(** C8 (as the code has it): when every year from [start_year] to
    [start_year + num_years - 1] has an inflation entry,
    [get_inflation_percentage] returns the product of [1 + rate y] over
    those years, multiplied up from 1 from left to right, and
    [nominal_to_real] returns the amount times the reciprocal of that
    product, [start * (1 / product)], each operation rounded; a product that
    is zero raises [ZeroDivisionError].  For no years at all the result is
    the amount itself. *)
Theorem nominal_to_real_multiplies_by_the_reciprocal (g : Globals) (start : float)
    (start_year num_years : Z) :
  (forall y : Z, start_year <= y < start_year + num_years ->
     is_Some (year_to_inflation g !! y)) ->
  let factor :=
    fold_left (fun acc y => acc * (1 + rate_of g y))%float
              (seqZ start_year num_years) 1%float in
  get_inflation_percentage g start_year num_years = Ok factor
  /\ ((factor =? 0)%float = false ->
      nominal_to_real g start start_year num_years = Ok (start * (1 / factor))%float)
  /\ ((factor =? 0)%float = true ->
      nominal_to_real g start start_year num_years = Raise ZeroDivisionError)
  /\ (num_years <= 0 -> nominal_to_real g start start_year num_years = Ok start).
Proof.
  intros Hall factor.
  assert (Hget : get_inflation_percentage g start_year num_years = Ok factor).
  { apply compound_fold. intros y Hy. apply Hall. now apply elem_of_seqZ in Hy. }
  split; [exact Hget|]. unfold nominal_to_real. rewrite Hget. cbn [bind]. unfold truediv.
  split; [|split].
  - intros Hz. now rewrite Hz.
  - intros Hz. now rewrite Hz.
  - intros Hn. unfold factor. rewrite seqZ_nil by exact Hn. cbn [fold_left].
    change (1 =? 0)%float with false. cbn [bind].
    change (1 / 1)%float with 1%float. now rewrite mul_1_r.
Qed.

Lemma nominal_to_real_multiplies_by_the_reciprocal_witness :
  get_inflation_percentage (cli 4 true (one_year 100) five_percent) 2000 1
  = Ok (fold_left
          (fun acc y => acc * (1 + rate_of (cli 4 true (one_year 100) five_percent) y))%float
          (seqZ 2000 1) 1%float).
Proof.
  apply (nominal_to_real_multiplies_by_the_reciprocal
           (cli 4 true (one_year 100) five_percent) 123.5 2000 1).
  intros y Hy. assert (y = 2000) as -> by lia. eexists. reflexivity.
Defined.

(** C8, as the claim states it, fails: over the one year 2000 at a rate of
    0.05 the product is 1.05, and [nominal_to_real] of 123.5 is
    [123.5 * (1 / 1.05) = 117.61904761904761], while the amount divided by
    the product is [123.5 / 1.05 = 117.61904761904762]. *)
Lemma nominal_to_real_is_not_the_quotient :
  exists factor real : float,
    get_inflation_percentage (cli 4 true (one_year 100) five_percent) 2000 1
    = Ok factor
    /\ nominal_to_real (cli 4 true (one_year 100) five_percent) 123.5 2000 1
       = Ok real
    /\ (real <? 123.5 / factor)%float = true
    /\ real <> (123.5 / factor)%float.
Proof.
  eexists. eexists.
  split; [vm_compute; reflexivity|].
  split; [vm_compute; reflexivity|].
  apply ltb_differ. vm_compute. reflexivity.
Qed.

(** ** Trades and net worth *)





(** ** What can end a run *)

Lemma bind_arithmetic_only {A B : Type} (r : result A) (k : A -> result B) :
  arithmetic_only r -> (forall a, r = Ok a -> arithmetic_only (k a)) ->
  arithmetic_only (bind r k).
Proof. destruct r as [a|e]; cbn [bind]; intros Hr Hk; [now apply Hk | exact Hr]. Qed.

Lemma of_int_arithmetic_only (z : Z) : arithmetic_only (of_int z).
Proof. unfold of_int. now destruct (is_infinity _). Qed.

Lemma floor_arithmetic_only (x : float) : arithmetic_only (floor x).
Proof. unfold floor. now destruct (Prim2SF x). Qed.

Lemma ceil_arithmetic_only (x : float) : arithmetic_only (ceil x).
Proof. unfold ceil. now destruct (Prim2SF x). Qed.

Lemma positive_is_not_zero (p : float) :
  (0 <? p)%float = true -> (p =? 0)%float = false.
Proof.
  rewrite FloatAxioms.ltb_spec, FloatAxioms.eqb_spec. unfold SFltb, SFeqb.
  rewrite (SFcompare_antisym (Prim2SF 0) (Prim2SF p)).
  now destruct (SFcompare (Prim2SF 0) (Prim2SF p)) as [[| |]|].
Qed.

Section Covered.
Context `{Externals}.
Variable g : Globals.
Variable m : Market.
Hypothesis prices_positive :
  forall (y : Z) (r : SnpYear),
    _snp_yearly m !! y = Some r ->
    (0 <? open r)%float = true /\ (0 <? close r)%float = true.

Lemma current_price_covered (m' : Market) :
  _snp_yearly m' = _snp_yearly m -> is_Some (_snp_yearly m !! _cur_year m') ->
  exists p, current_price m' = Ok p /\ (p =? 0)%float = false.
Proof.
  intros Hsnp [r Hr]. destruct (prices_positive _ _ Hr) as [Ho Hc].
  unfold current_price, getitem. rewrite Hsnp, Hr.
  destruct (_at_start_of_year m'); cbn [bind];
    eexists; (split; [reflexivity|]); now apply positive_is_not_zero.
Qed.

Lemma net_worth_arithmetic_only (m' : Market) (a : InvestmentAccount) :
  _snp_yearly m' = _snp_yearly m -> is_Some (_snp_yearly m !! _cur_year m') ->
  arithmetic_only (net_worth m' a).
Proof.
  intros Hsnp Hy. destruct (current_price_covered m' Hsnp Hy) as (p & Hp & _).
  unfold net_worth. rewrite Hp. cbn [bind].
  apply bind_arithmetic_only; [apply of_int_arithmetic_only | now intros].
Qed.

Lemma year_body_arithmetic_only (y : Z) (s : LoopState) :
  covered m s ->
  match year_body g y s with
  | Ok (None, s') =>
      market s' = move_to_next_year (move_to_end_of_current_year (market s))
  | Ok (Some ret, _) =>
      ret = (false, colored ("ran short in " +:+ pretty y) "red")
      \/ ret = (false, colored "failed to spend cash?" "yellow")
  | Raise e => arithmetic_only (@Raise unit e)
  end.
Proof.
  intros (Hsnp & Hinf & Hprice & [i Hi]).
  destruct (current_price_covered (market s) Hsnp Hprice) as (p & Hp & Hp0).
  destruct (current_price_covered (move_to_end_of_current_year (market s)) Hsnp Hprice)
    as (p' & Hp' & _).
  pose proof (net_worth_arithmetic_only (market s) (account s) Hsnp Hprice) as Hnet.
  unfold year_body, this_year_withdrawal, num_shares_to_sell, sell_stock.
  destruct (net_worth (market s) (account s)) as [v|e]; cbn [bind]; [|exact Hnet].
  rewrite Hp. cbn [bind]. unfold truediv. rewrite Hp0. cbn [bind].
  match goal with |- context [ceil ?q] =>
    pose proof (ceil_arithmetic_only q) as Hceil; destruct (ceil q) as [n|e] end;
    cbn [bind]; [|exact Hceil].
  destruct (_num_shares (account s) <? n); cbn [bind fst snd negb]; [now left|].
  pose proof (of_int_arithmetic_only n) as Hn.
  destruct (of_int n) as [x|e]; cbn [bind fst snd negb]; [|exact Hn].
  unfold spend_cash.
  match goal with |- context [(?c <? ?w)%float] => destruct (c <? w)%float end;
    cbn [fst snd negb]; [now right|].
  rewrite Hp'. cbn [bind]. unfold current_inflation, getitem.
  cbn [move_to_end_of_current_year _year_to_inflation _cur_year].
  rewrite Hinf, Hi. cbn [bind].
  match goal with |- context [net_worth ?m' ?a'] =>
    pose proof (net_worth_arithmetic_only m' a' Hsnp Hprice) as Hnet';
    destruct (net_worth m' a') as [v'|e] end; cbn [bind]; [reflexivity | exact Hnet'].
Qed.

Lemma loop_arithmetic_only (len : nat) :
  forall (year : Z) (ret : bool * string) (s : LoopState),
    _snp_yearly (market s) = _snp_yearly m ->
    _year_to_inflation (market s) = _year_to_inflation m ->
    (forall k : Z,
       _cur_year (market s) <= k < _cur_year (market s) + Z.of_nat len ->
       is_Some (_snp_yearly m !! k) /\ is_Some (_year_to_inflation m !! k)) ->
    match loop g (seqZ year (Z.of_nat len)) ret s with
    | Ok (ret', _) =>
        ret' = ret
        \/ (exists y : Z,
              year <= y < year + Z.of_nat len
              /\ ret' = (false, colored ("ran short in " +:+ pretty y) "red"))
        \/ ret' = (false, colored "failed to spend cash?" "yellow")
    | Raise e => arithmetic_only (@Raise unit e)
    end.
Proof.
  induction len as [|len IH]; intros year ret s Hsnp Hinf Hdata.
  - cbn. now left.
  - rewrite seqZ_cons by lia. cbn [loop].
    assert (Hs : covered m s).
    { destruct (Hdata (_cur_year (market s))) as [? ?]; [lia|]. now repeat split. }
    pose proof (year_body_arithmetic_only year s Hs) as Hbody.
    destruct (year_body g year s) as [[[ret'|] s']|e]; cbn [bind fst snd].
    + destruct Hbody as [-> | ->]; [|now right; right].
      right; left. exists year. split; [lia | reflexivity].
    + replace (Z.pred (Z.of_nat (S len))) with (Z.of_nat len) by lia.
      replace (Z.succ year) with (year + 1) by lia.
      specialize (IH (year + 1) ret s').
      rewrite Hbody in IH. cbn [move_to_next_year move_to_end_of_current_year
        _snp_yearly _year_to_inflation _cur_year] in IH.
      specialize (IH Hsnp Hinf).
      assert (Hdata' : forall k : Z,
        _cur_year (market s) + 1 <= k < _cur_year (market s) + 1 + Z.of_nat len ->
        is_Some (_snp_yearly m !! k) /\ is_Some (_year_to_inflation m !! k)).
      { intros k Hk. apply Hdata. lia. }
      specialize (IH Hdata').
      destruct (loop g (seqZ (year + 1) (Z.of_nat len)) ret s') as [[ret' s'']|e];
        [|exact IH].
      destruct IH as [-> | [(y & Hy & ->) | ->]]; [now left | | now right; right].
      right; left. exists y. split; [lia | reflexivity].
    + exact Hbody.
Qed.

End Covered.

(** [X14] With positive prices, a price record for the start year and every
    year of the horizon, and an inflation entry for every year of the horizon,
    [go] looks nothing up in vain and divides by no zero: it returns
    [(True, '')], [(False, 'ran short in Y')] for a year [Y] of the horizon or
    [(False, 'failed to spend cash?')], or else it raises the [AssertionError]
    of [buy_stock] or one of the errors of [math.floor] and [math.ceil]. *)
Theorem go_ends_in_a_result_or_an_arithmetic_error `{Externals}
    (g : Globals) (a : InvestmentAccount) (m : Market) (start_year num_years : Z) :
  (forall (y : Z) (r : SnpYear),
     _snp_yearly m !! y = Some r ->
     (0 <? open r)%float = true /\ (0 <? close r)%float = true) ->
  (forall y : Z,
     _cur_year m <= y < _cur_year m + Z.max 1 num_years ->
     is_Some (_snp_yearly m !! y)) ->
  (forall y : Z,
     _cur_year m <= y < _cur_year m + num_years ->
     is_Some (_year_to_inflation m !! y)) ->
  match go g a m start_year num_years with
  | Ok (ret, _) =>
      ret = (true, "")
      \/ (exists y : Z,
            start_year <= y < start_year + num_years
            /\ ret = (false, colored ("ran short in " +:+ pretty y) "red"))
      \/ ret = (false, colored "failed to spend cash?" "yellow")
  | Raise e => e = AssertionError \/ e = OverflowError \/ e = ValueError
  end.
Proof.
  intros Hpos Hsnp Hinf.
  assert (Harith : forall (A : Type) (e : exn),
    arithmetic_only (@Raise A e) ->
    e = AssertionError \/ e = OverflowError \/ e = ValueError).
  { intros A [k| | | |]; cbn; intros Hk; tauto. }
  assert (Hstart : is_Some (_snp_yearly m !! _cur_year m)) by (apply Hsnp; lia).
  destruct (current_price_covered m Hpos m eq_refl Hstart) as (p & Hp & Hp0).
  unfold go, go_init, buy_stock. rewrite Hp. cbn [bind].
  unfold truediv. rewrite Hp0. cbn [bind].
  match goal with |- context [floor ?q] =>
    pose proof (floor_arithmetic_only q) as Hfloor; destruct (floor q) as [n|e] end;
    cbn [bind]; [|now apply (Harith Z)].
  pose proof (of_int_arithmetic_only n) as Hn.
  destruct (of_int n) as [x|e]; cbn [bind]; [|now apply (Harith float)].
  destruct (p * x <=? _cash a)%float; cbn [bind]; [|now left].
  match goal with |- context [loop g _ _ ?s] => set (s0 := s) end.
  destruct (Z.le_gt_cases num_years 0) as [Hle | Hgt].
  - rewrite seqZ_nil by lia. cbn. now left.
  - pose proof (loop_arithmetic_only g m Hpos (Z.to_nat num_years) start_year
      (true, "") s0 eq_refl eq_refl) as Hloop.
    rewrite Z2Nat.id in Hloop by lia.
    assert (Hdata : forall k : Z,
      _cur_year (market s0) <= k < _cur_year (market s0) + num_years ->
      is_Some (_snp_yearly m !! k) /\ is_Some (_year_to_inflation m !! k)).
    { subst s0. cbn [market]. intros k Hk. split; [apply Hsnp | apply Hinf]; lia. }
    specialize (Hloop Hdata).
    destruct (loop g (seqZ start_year num_years) (true, "") s0) as [[ret s']|e];
      [exact Hloop | now apply (Harith unit)].
Qed.

(** A year at 100 a share with no inflation, run from 350 in cash. *)
Lemma go_ends_in_a_result_or_an_arithmetic_error_witness :
  match
    @go plain_text (cli 4 true (one_year 100) no_inflation) (mkAccount 350 0)
      (Market_init (one_year 100) 2000 no_inflation) 2000 1
  with
  | Ok (ret, _) =>
      ret = (true, "")
      \/ (exists y : Z,
            2000 <= y < 2000 + 1
            /\ ret = (false, @colored plain_text ("ran short in " +:+ pretty y) "red"))
      \/ ret = (false, @colored plain_text "failed to spend cash?" "yellow")
  | Raise e => e = AssertionError \/ e = OverflowError \/ e = ValueError
  end.
Proof.
  apply (@go_ends_in_a_result_or_an_arithmetic_error plain_text).
  - intros y r Hr. cbn [Market_init _snp_yearly] in Hr. unfold one_year in Hr.
    apply lookup_singleton_Some in Hr as [_ <-]. now vm_compute.
  - intros y Hy. cbn [Market_init _snp_yearly _cur_year] in *.
    replace y with 2000 by lia. now eexists.
  - intros y Hy. cbn [Market_init _year_to_inflation _cur_year] in *.
    replace y with 2000 by lia. now eexists.
Defined.
